(** * Runner fleet infrastructure: environment configuration and runner stack

    A shallow embedding of the two TypeScript sources of the repository:

    - [config/env-config.ts]: the [EnvConfigClass] constructor, which turns the
      raw configuration object into the per-stage environments;
    - the runner stack ([ASGRunnerStack]): the constructor that dispatches on
      the runner's platform and builds the launch template, the resource
      group, the auto scaling group and the beta spin-down action.

    JavaScript values are modelled as the code uses them: strings as [string],
    numbers that are integers as [Z], an optional property or an
    [undefined]-able value as [option], a [throw] as the left injection of a
    sum.  The file system read by [readFileSync] and the clock read by
    [new Date()] are inputs of the model.  The calls into the cdk library
    that validate their arguments are modelled by their outcome, at the place
    of the call. *)

From Stdlib Require Import ZArith List Bool Lia.
From Stdlib Require Import Strings.Ascii Strings.String.
Import ListNotations.

Open Scope string_scope.
Open Scope Z_scope.

(** ** JavaScript errors and the exception monad *)

(** The argument checks of the cdk library that the runner stack runs into:
    the VPC lookup, the machine image of the launch template and the
    capacities of the auto scaling group. *)
Inductive CdkCheck : Type :=
| VpcLookupEnvironment
| MachineImageForRegion
| GroupCapacity.

(** [Error] and [RangeError] carry their message; the validation error of the
    cdk library is identified by the check that raised it. *)
Inductive JsError : Type :=
| Error (message : string)
| RangeError (message : string)
| ValidationError (check : CdkCheck).

Definition Js (A : Type) : Type := (JsError + A)%type.

Definition ret {A : Type} (a : A) : Js A := inr a.
Definition throw {A : Type} (e : JsError) : Js A := inl e.

Definition bind {A B : Type} (m : Js A) (k : A -> Js B) : Js B :=
  match m with
  | inl e => inl e
  | inr a => k a
  end.

Notation "x <- m ;; k" := (bind m (fun x => k))
  (at level 61, m at next level, right associativity).

(** [when_ c e] is the statement [if (c) { throw e; }]. *)
Definition when_ (c : bool) (e : JsError) : Js unit :=
  if c then throw e else ret tt.

(** ** [cdk.Environment] *)

(** Both properties of [cdk.Environment] are optional. *)
Record Environment : Type := mkEnvironment {
  account : option string;
  region : option string
}.

(** ** config/env-config.ts *)

Module EnvConfig.

(** The configuration file.  Each recognised key is absent or holds an
    environment object; an object is truthy, an absent key reads as
    [undefined], which is falsy. *)
Record ConfigFile : Type := mkConfigFile {
  cf_envDev : option Environment;
  cf_envPipeline : option Environment;
  cf_envBeta : option Environment;
  cf_envProd : option Environment;
  cf_envRelease : option Environment
}.

(** The fields of the constructed object.  A field the constructor never
    assigns stays [undefined] ([None]). *)
Record EnvConfigClass : Type := mkEnvConfigClass {
  isDev : option bool;
  envPipeline : option Environment;
  envBeta : option Environment;
  envProd : option Environment;
  envRelease : option Environment
}.

(** [!configFile.k] *)
Definition falsy (v : option Environment) : bool :=
  match v with
  | Some _ => false
  | None => true
  end.

Definition must_be_specified (field : string) : JsError :=
  Error ("Error: " ++ field ++ " must be specified.").

(** The constructor.  [this] is threaded as the fields assigned so far. *)
Definition constructor (configFile : ConfigFile) : Js EnvConfigClass :=
  match cf_envDev configFile with
  | Some envDev =>
      ret {| isDev := Some true;
             envPipeline := Some envDev;
             envBeta := Some envDev;
             envProd := None;
             envRelease := None |}
  | None =>
      _ <- when_ (falsy (cf_envPipeline configFile)) (must_be_specified "envPipeline") ;;
      let this_envPipeline := cf_envPipeline configFile in
      _ <- when_ (falsy (cf_envBeta configFile)) (must_be_specified "envBeta") ;;
      let this_envBeta := cf_envBeta configFile in
      _ <- when_ (falsy (cf_envProd configFile)) (must_be_specified "envProd") ;;
      let this_envProd := cf_envProd configFile in
      _ <- when_ (falsy (cf_envRelease configFile)) (must_be_specified "envRelease") ;;
      let this_envRelease := cf_envRelease configFile in
      ret {| isDev := None;
             envPipeline := this_envPipeline;
             envBeta := this_envBeta;
             envProd := this_envProd;
             envRelease := this_envRelease |}
  end.

(** The required keys of a non-dev configuration, in the order the
    specification lists them, each with its value in the file. *)
Definition required_fields (configFile : ConfigFile) : list (string * option Environment) :=
  [ ("envPipeline", cf_envPipeline configFile);
    ("envBeta", cf_envBeta configFile);
    ("envProd", cf_envProd configFile);
    ("envRelease", cf_envRelease configFile) ].

(** The earliest required key that is missing, if any. *)
Definition first_missing (configFile : ConfigFile) : option string :=
  option_map fst (find (fun kv => falsy (snd kv)) (required_fields configFile)).

End EnvConfig.

(** ** JavaScript strings *)

Module JsString.

(** The line feed of a template literal that spans lines. *)
Definition LF : string := String "010"%char "".

(** [`${v}`] for a value that may be [undefined]. *)
Definition interpolate (v : option string) : string :=
  match v with
  | Some s => s
  | None => "undefined"
  end.

Fixpoint drop (n : nat) (s : string) : string :=
  match n, s with
  | O, _ => s
  | S _, EmptyString => EmptyString
  | S n', String _ s' => drop n' s'
  end.

(** The text before and the text after the first occurrence of [pat]. *)
Fixpoint find_first (pat s : string) : option (string * string) :=
  if prefix pat s then Some ("", drop (length pat) s)
  else match s with
       | EmptyString => None
       | String c s' =>
           match find_first pat s' with
           | Some (before, after) => Some (String c before, after)
           | None => None
           end
       end.

(** [GetSubstitution] for a pattern that is a string: there are no captures,
    so only [$$], [$&], [$`] and [$'] are special in the replacement. *)
Fixpoint getSubstitution (matched before after replacement : string) : string :=
  match replacement with
  | EmptyString => EmptyString
  | String c rest =>
      if Ascii.eqb c "$"%char then
        match rest with
        | EmptyString => String c EmptyString
        | String d rest' =>
            if Ascii.eqb d "$"%char then String "$"%char (getSubstitution matched before after rest')
            else if Ascii.eqb d "&"%char then matched ++ getSubstitution matched before after rest'
            else if Ascii.eqb d "`"%char then before ++ getSubstitution matched before after rest'
            else if Ascii.eqb d "'"%char then after ++ getSubstitution matched before after rest'
            else String c (getSubstitution matched before after rest)
        end
      else String c (getSubstitution matched before after rest)
  end.

(** [s.replace(pat, replacement)] with a string pattern: the first occurrence
    only. *)
Definition replace (pat replacement s : string) : string :=
  match find_first pat s with
  | None => s
  | Some (before, after) => before ++ getSubstitution pat before after replacement ++ after
  end.

(** [s.split(sep)[0]] for a one-character separator: the text before the
    first separator, the whole string when there is none. *)
Fixpoint split_head (sep : ascii) (s : string) : string :=
  match s with
  | EmptyString => EmptyString
  | String c s' => if Ascii.eqb c sep then EmptyString else String c (split_head sep s')
  end.

End JsString.

(** ** JavaScript dates *)

Module Date.

Definition msPerDay : Z := 86400000.

(** A date holds a time value in milliseconds since the epoch, or is an
    invalid date ([None]). *)
Definition t : Type := option Z.

(** [new Date(value)]: the time value is clipped to 8.64e15 ms either side of
    the epoch. *)
Definition new (value : Z) : t :=
  if Z.abs value <=? 8640000000000000 then Some value else None.

Definition digit (d : Z) : ascii := ascii_of_nat (48 + Z.to_nat d).

(** The last [width] decimal digits of [n], zero padded. *)
Fixpoint pad (width : nat) (n : Z) : string :=
  match width with
  | O => EmptyString
  | S w => pad w (n / 10) ++ String (digit (n mod 10)) EmptyString
  end.

(** Year, month and day of a day number counted from the epoch, in the
    proleptic Gregorian calendar. *)
Definition civil_from_days (days : Z) : Z * Z * Z :=
  let z := days + 719468 in
  let era := z / 146097 in
  let doe := z - era * 146097 in
  let yoe := (doe - doe / 1460 + doe / 36524 - doe / 146096) / 365 in
  let doy := doe - (365 * yoe + yoe / 4 - yoe / 100) in
  let mp := (5 * doy + 2) / 153 in
  let d := doy - (153 * mp + 2) / 5 + 1 in
  let m := if mp <? 10 then mp + 3 else mp - 9 in
  let y := yoe + era * 400 + (if m <=? 2 then 1 else 0) in
  (y, m, d).

Definition year_string (y : Z) : string :=
  if (0 <=? y) && (y <=? 9999) then pad 4 y
  else (if y <? 0 then "-" else "+") ++ pad 6 (Z.abs y).

Definition iso_of_time_value (tv : Z) : string :=
  let days := tv / msPerDay in
  let ms := tv mod msPerDay in
  let '(y, m, d) := civil_from_days days in
  year_string y ++ "-" ++ pad 2 m ++ "-" ++ pad 2 d ++ "T"
    ++ pad 2 (ms / 3600000) ++ ":" ++ pad 2 (ms / 60000 mod 60) ++ ":"
    ++ pad 2 (ms / 1000 mod 60) ++ "." ++ pad 3 (ms mod 1000) ++ "Z".

(** [d.toISOString()] raises a [RangeError] on an invalid date. *)
Definition toISOString (d : t) : Js string :=
  match d with
  | Some tv => ret (iso_of_time_value tv)
  | None => throw (RangeError "Invalid time value")
  end.

End Date.

(** ** The runner stack *)

(** Modelled from the spec: the declaration of [ENVIRONMENT_STAGE]
    (finch-pipeline-app-stage) is missing.  The specification names the
    stages Beta and Release and speaks of other pipeline stages; [Prod]
    stands for those. *)
Inductive ENVIRONMENT_STAGE : Type := Beta | Prod | Release.

Definition stage_eqb (a b : ENVIRONMENT_STAGE) : bool :=
  match a, b with
  | Beta, Beta | Prod, Prod | Release, Release => true
  | _, _ => false
  end.

(** Modelled from the spec: the declaration of [PlatformType]
    (config/runner-config) is missing.  It is a string enum: the stack
    interpolates a platform into the image architecture and into the resource
    group name, where the specification shows [arm64_mac] and
    [foo-amazonlinux-2023].  The value of [WINDOWS] is not shown there; the
    switch only needs it to differ from the other two. *)
Module PlatformType.
Definition MAC : string := "mac".
Definition WINDOWS : string := "windows".
Definition AMAZONLINUX : string := "amazonlinux".
End PlatformType.

(** Modelled from the spec: the declaration of [RunnerType]
    (config/runner-config) is missing; the fields are those of the runner
    type descriptor.  The stack compares [arch] with the string ['arm']. *)
Record RunnerType : Type := mkRunnerType {
  platform : string;
  arch : string;
  version : string;
  repo : string;
  desiredInstances : Z
}.

Record ASGRunnerStackProps : Type := mkProps {
  env : option Environment;
  stage : ENVIRONMENT_STAGE;
  licenseArn : option string;
  type : RunnerType
}.

(** [props.env?.region] and [props.env?.account] *)
Definition env_region (props : ASGRunnerStackProps) : option string :=
  match env props with
  | Some e => region e
  | None => None
  end.

Definition env_account (props : ASGRunnerStackProps) : option string :=
  match env props with
  | Some e => account e
  | None => None
  end.

(** [v || ''] *)
Definition or_empty (v : option string) : string :=
  match v with
  | Some s => s
  | None => ""
  end.

Inductive WindowsVersion : Type := WINDOWS_SERVER_2022_ENGLISH_FULL_BASE.

(** The machine images the stack asks the [ec2] library for. *)
Inductive IMachineImage : Type :=
| LookupMachineImage (name : string) (filters : list (string * list string))
| latestWindows (v : WindowsVersion)
| latestAmazonLinux2
| latestAmazonLinux2023
| genericLinux (amiMap : list (string * string)).

(** [ec2.BlockDevice] with an EBS volume of [volumeSize] GiB. *)
Record BlockDevice : Type := mkBlockDevice {
  deviceName : string;
  volumeSize : Z
}.

Inductive ScalingProcess : Type :=
| HEALTH_CHECK | REPLACE_UNHEALTHY | AZ_REBALANCE | ALARM_NOTIFICATION | SCHEDULED_ACTIONS.

(** [UpdatePolicy.rollingUpdate] *)
Record RollingUpdate : Type := mkRollingUpdate {
  maxBatchSize : Z;
  minInstancesInService : Z;
  suspendProcesses : list ScalingProcess;
  waitOnResourceSignals : bool
}.

Record LaunchTemplate : Type := mkLaunchTemplate {
  lt_id : string;
  requireImdsv2 : bool;
  lt_instanceType : string;
  keyPairId : string;
  keyPairName : string;
  lt_machineImage : option IMachineImage;
  lt_userData : string;
  blockDevices : list BlockDevice;
  tenancy : string;
  licenseSpecifications : list string
}.

Record AutoScalingGroup : Type := mkAutoScalingGroup {
  asg_id : string;
  desiredCapacity : Z;
  maxCapacity : Z;
  minCapacity : Z;
  healthCheckGraceSeconds : Z;
  updatePolicy : RollingUpdate
}.

Record CfnScheduledAction : Type := mkCfnScheduledAction {
  sa_id : string;
  autoScalingGroupName : string;
  startTime : string;
  sa_desiredCapacity : Z
}.

(** What the constructor leaves in the stack. *)
Record ASGRunnerStack : Type := mkASGRunnerStack {
  managedPolicies : list string;
  secretResources : list string;
  resourceGroupName : string;
  launchTemplate : LaunchTemplate;
  asg : AutoScalingGroup;
  scheduledActions : list CfnScheduledAction
}.

(** ** The checks of the cdk library

    The constructor of the stack calls into [aws-cdk-lib]; three of the calls
    validate what they are given and throw.  Each is modelled by its outcome:
    it returns, or it raises the library's validation error. *)
Module Cdk.

(** [Vpc.fromLookup(this, 'VPC', ...)]: a context lookup needs the account
    and the region of the stack, which are those of [props.env]. *)
Definition Vpc_fromLookup (env : option Environment) : Js unit :=
  match env with
  | Some {| account := Some _; region := Some _ |} => ret tt
  | _ => throw (ValidationError VpcLookupEnvironment)
  end.

(** [machineImage.getImage(this)], called by [new ec2.LaunchTemplate]: a
    generic Linux image is looked up in its map under the region of the
    stack and must be there; the other images are resolved at deployment. *)
Definition getImage (machineImage : option IMachineImage) (region : option string)
    : Js unit :=
  match machineImage, region with
  | Some (genericLinux amiMap), Some r =>
      if existsb (fun entry => String.eqb (fst entry) r) amiMap then ret tt
      else throw (ValidationError MachineImageForRegion)
  | _, _ => ret tt
  end.

(** [new autoscaling.AutoScalingGroup]: the capacities must satisfy
    [minCapacity <= desiredCapacity <= maxCapacity]. *)
Definition AutoScalingGroup_capacity (desiredCapacity maxCapacity minCapacity : Z)
    : Js unit :=
  if (maxCapacity <? minCapacity) || (desiredCapacity <? minCapacity)
     || (maxCapacity <? desiredCapacity)
  then throw (ValidationError GroupCapacity)
  else ret tt.

End Cdk.

(** The variables the [switch] assigns. *)
Record Locals : Type := mkLocals {
  instanceType : string;
  machineImage : option IMachineImage;
  userDataString : string;
  asgName : string
}.

(** A [switch] on a string whose [default] clause comes last and whose
    clauses are given by their label ([None] for [default]) and body.  No
    body of the stack's switch ends in [break], so a body maps the variables
    to the variables and control runs on into the next clause: once a clause
    is entered, every later body runs too. *)
Fixpoint switch_from {St : Type} (entered : bool) (scrutinee : string)
    (clauses : list (option string * (St -> St))) (st : St) : St :=
  match clauses with
  | [] => st
  | (label, body) :: rest =>
      let enter :=
        entered || match label with
                   | Some l => String.eqb scrutinee l
                   | None => true
                   end in
      switch_from enter scrutinee rest (if enter then body st else st)
  end.

Definition switch {St : Type} := @switch_from St false.

Section Stack.

(** [readFileSync(path, 'utf8')]: the text of the file at [path]. *)
Variable readFileSync : string -> string.

(** The time value [new Date().getTime()] reads when the stack is built. *)
Variable now : Z.

Definition label_stage (props : ASGRunnerStackProps) : string :=
  if stage_eqb (stage props) Release then "release" else "test".

Definition userData (props : ASGRunnerStackProps) (setupScriptName : string) : string :=
  ("#!/bin/bash" ++ JsString.LF
   ++ "LABEL_STAGE=" ++ label_stage props ++ JsString.LF
   ++ "REPO=" ++ repo (type props) ++ JsString.LF
   ++ "REGION=" ++ JsString.interpolate (env_region props) ++ JsString.LF)
  ++ readFileSync ("./scripts/" ++ setupScriptName).

Definition amiSearchString (props : ASGRunnerStackProps) : string :=
  "amzn-ec2-macos-" ++ version (type props) ++ "*".

Definition initial_locals : Locals :=
  {| instanceType := ""; machineImage := None; userDataString := ""; asgName := "" |}.

(** [case PlatformType.MAC] *)
Definition case_MAC (props : ASGRunnerStackProps) (l : Locals) : Locals :=
  let platform := platform (type props) in
  let arch := arch (type props) in
  let instanceType := if String.eqb arch "arm" then "mac2.metal" else "mac1.metal" in
  let macOSArchLookup :=
    if String.eqb arch "arm" then "arm64_" ++ platform else "x86_64_" ++ platform in
  let machineImage :=
    LookupMachineImage (amiSearchString props)
      [ ("virtualization-type", ["hvm"]);
        ("root-device-type", ["ebs"]);
        ("architecture", [macOSArchLookup]);
        ("owner-alias", ["amazon"]) ] in
  {| instanceType := instanceType;
     machineImage := Some machineImage;
     asgName := "MacASG";
     userDataString := userData props "setup-runner.sh" |}.

(** [case PlatformType.WINDOWS] *)
Definition case_WINDOWS (props : ASGRunnerStackProps) (l : Locals) : Locals :=
  {| instanceType := "m5zn.metal";
     asgName := "WindowsASG";
     machineImage := Some (latestWindows WINDOWS_SERVER_2022_ENGLISH_FULL_BASE);
     userDataString :=
       JsString.replace "<REGION>" (or_empty (env_region props))
         (JsString.replace "<REPO>" (repo (type props))
            (JsString.replace "<STAGE>" (label_stage props)
               (readFileSync "./scripts/windows-runner-user-data.yaml"))) |}.

(** [default] *)
Definition case_default (props : ASGRunnerStackProps) (l : Locals) : Locals :=
  let platform := platform (type props) in
  let arch := arch (type props) in
  {| instanceType := if String.eqb arch "arm" then "c7g.large" else "c7a.large";
     asgName := "LinuxASG";
     userDataString := userData props "setup-linux-runner.sh";
     machineImage :=
       Some (if String.eqb platform PlatformType.AMAZONLINUX then
               if String.eqb (version (type props)) "2" then latestAmazonLinux2
               else latestAmazonLinux2023
             else
               genericLinux
                 [ ("us-east-2",
                    if String.eqb arch "arm" then "ami-02f1e969ae0fdff65"
                    else "ami-097f74237291abc07");
                   ("us-east-1",
                    if String.eqb arch "arm" then "ami-0d3825b70fa928886"
                    else "ami-004f552bba0e5f64f") ]) |}.

(** The [switch (platform)] of the constructor, as it is written: three
    clauses, none of which ends in [break]. *)
Definition platform_switch (props : ASGRunnerStackProps) : Locals :=
  switch (platform (type props))
    [ (Some PlatformType.MAC, case_MAC props);
      (Some PlatformType.WINDOWS, case_WINDOWS props);
      (None, case_default props) ]
    initial_locals.

Definition rootVolume : BlockDevice :=
  {| deviceName := "/dev/sda1"; volumeSize := 100 |}.

Definition rollingUpdate : RollingUpdate :=
  {| maxBatchSize := 1;
     minInstancesInService := 0;
     suspendProcesses :=
       [HEALTH_CHECK; REPLACE_UNHEALTHY; AZ_REBALANCE; ALARM_NOTIFICATION; SCHEDULED_ACTIONS];
     waitOnResourceSignals := false |}.

(** [...(props.licenseArn && { licenseSpecifications: [...] })]: an absent
    or empty ARN is falsy and spreads nothing. *)
Definition license_specifications (props : ASGRunnerStackProps) : list string :=
  match licenseArn props with
  | Some a => if String.eqb a "" then [] else [a]
  | None => []
  end.

(** The [SpinDownBetaInstances] action, created at stage Beta only. *)
Definition spin_down_beta (props : ASGRunnerStackProps) (asgName : string)
    : Js (list CfnScheduledAction) :=
  if stage_eqb (stage props) Beta then
    startTime <- Date.toISOString (Date.new (now + 1 * 24 * 60 * 60 * 1000)) ;;
    ret [ {| sa_id := "SpinDownBetaInstances";
             autoScalingGroupName := asgName;
             startTime := startTime;
             sa_desiredCapacity := 0 |} ]
  else ret [].

(** The constructor of the stack. *)
Definition constructor (props : ASGRunnerStackProps) : Js ASGRunnerStack :=
  let platform := platform (type props) in
  let version := version (type props) in
  let locals := platform_switch props in
  _ <- when_ (match env props with None => true | Some _ => false end)
         (Error "Runner environment is undefined!") ;;
  _ <- Cdk.Vpc_fromLookup (env props) ;;
  let secret :=
    "arn:aws:secretsmanager:" ++ JsString.interpolate (env_region props) ++ ":"
      ++ JsString.interpolate (env_account props) ++ ":secret:"
      ++ repo (type props) ++ "-runner-reg-key*" in
  let resourceGroupName :=
    repo (type props) ++ "-" ++ platform ++ "-" ++ JsString.split_head "."%char version
      ++ "-" ++ arch (type props) ++ "HostGroup" in
  let ltName := asgName locals ++ "LaunchTemplate" in
  let keyPairName := asgName locals ++ "KeyPair" in
  let lt :=
    {| lt_id := ltName;
       requireImdsv2 := true;
       lt_instanceType := instanceType locals;
       keyPairId := keyPairName;
       keyPairName := "runner-key";
       lt_machineImage := machineImage locals;
       lt_userData := userDataString locals;
       blockDevices := [rootVolume];
       tenancy := "host";
       licenseSpecifications := license_specifications props |} in
  _ <- Cdk.getImage (lt_machineImage lt) (env_region props) ;;
  let asg :=
    {| asg_id := asgName locals;
       desiredCapacity := desiredInstances (type props);
       maxCapacity := desiredInstances (type props);
       minCapacity := 0;
       healthCheckGraceSeconds := 3600;
       updatePolicy := rollingUpdate |} in
  _ <- Cdk.AutoScalingGroup_capacity (desiredCapacity asg) (maxCapacity asg)
         (minCapacity asg) ;;
  scheduled <- spin_down_beta props (asg_id asg) ;;
  ret {| managedPolicies :=
           [ "AmazonSSMManagedInstanceCore";
             "AutoScalingFullAccess";
             "ResourceGroupsandTagEditorFullAccess" ];
         secretResources := [secret];
         resourceGroupName := resourceGroupName;
         launchTemplate := lt;
         asg := asg;
         scheduledActions := scheduled |}.

(** The clock condition under which the spin-down action can be dated: at
    stage Beta, a day after [now] is still a time value a date can hold. *)
Definition clock_ok (props : ASGRunnerStackProps) : Prop :=
  stage props = Beta -> Z.abs (now + Date.msPerDay) <= 8640000000000000.

End Stack.

(** An environment that has no region or no account: it is undefined, or it
    is an object that misses one of the two. *)
Definition lacks_region_or_account (env : option Environment) : bool :=
  match env with
  | Some {| account := Some _; region := Some _ |} => false
  | _ => true
  end.

(** The errors raised for such an environment: the constructor's own, for an
    undefined environment, and that of the VPC lookup. *)
Definition environment_error (err : JsError) : bool :=
  match err with
  | Error message => String.eqb message "Runner environment is undefined!"
  | ValidationError VpcLookupEnvironment => true
  | _ => false
  end.

(** The regions the generic Linux image map of the default clause has. *)
Definition in_linux_ami_map (r : string) : Prop :=
  r = "us-east-2" \/ r = "us-east-1".

(** ** Sample inputs *)

Definition sample_files (path : string) : string :=
  if String.eqb path "./scripts/windows-runner-user-data.yaml" then
    "stage: <STAGE>; repo: <REPO>; region: <REGION>"
  else if String.eqb path "./scripts/setup-runner.sh" then "echo mac"
  else if String.eqb path "./scripts/setup-linux-runner.sh" then "echo linux"
  else "".

Definition sample_env : Environment :=
  {| account := Some "123"; region := Some "us-east-1" |}.

Definition sample_props (platform arch version : string) (stage : ENVIRONMENT_STAGE)
    (env : option Environment) : ASGRunnerStackProps :=
  {| env := env;
     stage := stage;
     licenseArn := None;
     type := {| platform := platform; arch := arch; version := version;
                repo := "myrepo"; desiredInstances := 3 |} |}.

(** 2026-11-03T02:04:05.123Z *)
Definition sample_now : Z := 1793671445123.

(** * Properties *)

(** ** Environment configuration *)

(** A non-dev configuration with all four stages resolves to them. *)
Lemma env_config_complete (p b pr r : Environment) :
  EnvConfig.constructor (EnvConfig.mkConfigFile None (Some p) (Some b) (Some pr) (Some r))
  = inr (EnvConfig.mkEnvConfigClass None (Some p) (Some b) (Some pr) (Some r)).
Proof. reflexivity. Qed.

(** C4: a non-dev configuration (no envDev) that misses at least one of
    envPipeline, envBeta, envProd, envRelease fails, and the error names the
    first missing field in the order envPipeline, envBeta, envProd,
    envRelease. *)
Theorem env_config_first_missing_reported (configFile : EnvConfig.ConfigFile) :
  EnvConfig.cf_envDev configFile = None ->
  EnvConfig.cf_envPipeline configFile = None \/ EnvConfig.cf_envBeta configFile = None
    \/ EnvConfig.cf_envProd configFile = None \/ EnvConfig.cf_envRelease configFile = None ->
  exists field,
    EnvConfig.first_missing configFile = Some field
    /\ EnvConfig.constructor configFile
       = inl (Error ("Error: " ++ field ++ " must be specified.")).
Proof.
  destruct configFile as [dev p b pr r]; simpl.
  intros -> Hmissing.
  unfold EnvConfig.first_missing, EnvConfig.constructor; simpl.
  destruct p as [p|]; [| eexists; split; reflexivity ].
  destruct b as [b|]; [| eexists; split; reflexivity ].
  destruct pr as [pr|]; [| eexists; split; reflexivity ].
  destruct r as [r|]; [| eexists; split; reflexivity ].
  exfalso. destruct Hmissing as [H | [H | [H | H]]]; discriminate H.
Qed.

Lemma env_config_first_missing_reported_witness :
  exists field,
    EnvConfig.first_missing
      (EnvConfig.mkConfigFile None (Some sample_env) None (Some sample_env) None)
    = Some field
    /\ EnvConfig.constructor
         (EnvConfig.mkConfigFile None (Some sample_env) None (Some sample_env) None)
       = inl (Error ("Error: " ++ field ++ " must be specified.")).
Proof.
  apply (env_config_first_missing_reported
           (EnvConfig.mkConfigFile None (Some sample_env) None (Some sample_env) None)).
  - reflexivity.
  - right; left; reflexivity.
Defined.

(** C5: a configuration with envDev present resolves, with isDev true, beta
    and pipeline both the envDev value, prod and release absent, whatever the
    other four fields hold. *)
Theorem env_config_dev_shortcut (envDev : Environment)
    (p b pr r : option Environment) :
  EnvConfig.constructor (EnvConfig.mkConfigFile (Some envDev) p b pr r)
  = inr {| EnvConfig.isDev := Some true;
           EnvConfig.envPipeline := Some envDev;
           EnvConfig.envBeta := Some envDev;
           EnvConfig.envProd := None;
           EnvConfig.envRelease := None |}.
Proof. reflexivity. Qed.

(** ** The platform switch *)

Section SwitchFacts.

Variable readFileSync : string -> string.

(** Entering at the MAC clause runs the three bodies in turn. *)
Lemma platform_switch_MAC (props : ASGRunnerStackProps) :
  platform (type props) = PlatformType.MAC ->
  platform_switch readFileSync props
  = case_default readFileSync props
      (case_WINDOWS readFileSync props
         (case_MAC readFileSync props initial_locals)).
Proof.
  intros Hp. unfold platform_switch, switch. rewrite Hp. reflexivity.
Qed.

(** Entering at the WINDOWS clause runs its body and the default body. *)
Lemma platform_switch_WINDOWS (props : ASGRunnerStackProps) :
  platform (type props) = PlatformType.WINDOWS ->
  platform_switch readFileSync props
  = case_default readFileSync props
      (case_WINDOWS readFileSync props initial_locals).
Proof.
  intros Hp. unfold platform_switch, switch. rewrite Hp. reflexivity.
Qed.

(** Any other platform enters at the default clause. *)
Lemma platform_switch_other (props : ASGRunnerStackProps) :
  platform (type props) <> PlatformType.MAC ->
  platform (type props) <> PlatformType.WINDOWS ->
  platform_switch readFileSync props
  = case_default readFileSync props initial_locals.
Proof.
  intros Hm Hw. unfold platform_switch, switch; simpl.
  apply String.eqb_neq in Hm. apply String.eqb_neq in Hw.
  rewrite Hm, Hw. reflexivity.
Qed.

(** The default body assigns all four variables, so what ran before it does
    not show in the result. *)
Lemma case_default_overwrites (props : ASGRunnerStackProps) (l l' : Locals) :
  case_default readFileSync props l = case_default readFileSync props l'.
Proof. reflexivity. Qed.

(** Whatever the platform, the variables leave the switch as the default
    body sets them. *)
Lemma platform_switch_is_default (props : ASGRunnerStackProps) :
  platform_switch readFileSync props
  = case_default readFileSync props initial_locals.
Proof.
  unfold platform_switch, switch; simpl.
  destruct (String.eqb (platform (type props)) PlatformType.MAC);
    destruct (String.eqb (platform (type props)) PlatformType.WINDOWS);
    reflexivity.
Qed.

(** What the MAC clause computes on its own for an arm runner. *)
Lemma case_MAC_arm (props : ASGRunnerStackProps) (l : Locals) :
  platform (type props) = PlatformType.MAC ->
  arch (type props) = "arm" ->
  case_MAC readFileSync props l
  = {| instanceType := "mac2.metal";
       machineImage :=
         Some (LookupMachineImage ("amzn-ec2-macos-" ++ version (type props) ++ "*")
                 [ ("virtualization-type", ["hvm"]);
                   ("root-device-type", ["ebs"]);
                   ("architecture", ["arm64_mac"]);
                   ("owner-alias", ["amazon"]) ]);
       userDataString := userData readFileSync props "setup-runner.sh";
       asgName := "MacASG" |}.
Proof.
  intros Hp Ha. unfold case_MAC, amiSearchString. rewrite Hp, Ha. reflexivity.
Qed.

(** What the WINDOWS clause computes on its own. *)
Lemma case_WINDOWS_alone (props : ASGRunnerStackProps) (l : Locals) :
  instanceType (case_WINDOWS readFileSync props l) = "m5zn.metal"
  /\ asgName (case_WINDOWS readFileSync props l) = "WindowsASG"
  /\ machineImage (case_WINDOWS readFileSync props l)
     = Some (latestWindows WINDOWS_SERVER_2022_ENGLISH_FULL_BASE).
Proof. repeat split. Qed.

End SwitchFacts.

(** On the sample template the WINDOWS clause substitutes the three
    placeholders. *)
Lemma case_WINDOWS_sample :
  userDataString
    (case_WINDOWS sample_files
       (sample_props PlatformType.WINDOWS "x86" "2022" Release (Some sample_env))
       initial_locals)
  = "stage: release; repo: myrepo; region: us-east-1".
Proof. reflexivity. Qed.

(** ** The constructor *)

Section ConstructorFacts.

Variable readFileSync : string -> string.
Variable now : Z.

Lemma spin_down_beta_other_stage (props : ASGRunnerStackProps) (name : string) :
  stage props <> Beta -> spin_down_beta now props name = inr [].
Proof.
  intros H. unfold spin_down_beta.
  destruct (stage props); try reflexivity. congruence.
Qed.

Lemma spin_down_beta_at_Beta (props : ASGRunnerStackProps) (name : string) :
  stage props = Beta ->
  Z.abs (now + Date.msPerDay) <= 8640000000000000 ->
  spin_down_beta now props name
  = inr [ {| sa_id := "SpinDownBetaInstances";
             autoScalingGroupName := name;
             startTime := Date.iso_of_time_value (now + Date.msPerDay);
             sa_desiredCapacity := 0 |} ].
Proof.
  intros Hs Hv. unfold spin_down_beta. rewrite Hs; simpl stage_eqb; cbv iota.
  change (1 * 24 * 60 * 60 * 1000) with Date.msPerDay.
  unfold Date.new. apply Z.leb_le in Hv. rewrite Hv. reflexivity.
Qed.

Lemma spin_down_beta_succeeds (props : ASGRunnerStackProps) (name : string) :
  clock_ok now props -> exists sched, spin_down_beta now props name = inr sched.
Proof.
  intros Hc. destruct (stage props) eqn:Hs.
  - eexists. apply spin_down_beta_at_Beta; auto.
  - eexists. apply spin_down_beta_other_stage. congruence.
  - eexists. apply spin_down_beta_other_stage. congruence.
Qed.

Lemma bind_inr {A B : Type} (m : Js A) (k : A -> Js B) (b : B) :
  bind m k = inr b -> exists a, m = inr a /\ k a = inr b.
Proof.
  unfold bind. destruct m as [e | a]; [ discriminate |].
  intros H. exists a. split; [ reflexivity | exact H ].
Qed.

Lemma bind_inl {A B : Type} (m : Js A) (k : A -> Js B) (e : JsError) :
  bind m k = inl e -> m = inl e \/ exists a, m = inr a /\ k a = inl e.
Proof.
  unfold bind. destruct m as [e' | a].
  - intros H. left. injection H as <-. reflexivity.
  - intros H. right. exists a. split; [ reflexivity | exact H ].
Qed.

Lemma Vpc_fromLookup_inr (env : option Environment) (u : unit) :
  Cdk.Vpc_fromLookup env = inr u <-> lacks_region_or_account env = false.
Proof.
  unfold Cdk.Vpc_fromLookup, lacks_region_or_account.
  destruct env as [[[a|] [r|]]|]; destruct u; split; intros H;
    try reflexivity; discriminate H.
Qed.

Lemma Vpc_fromLookup_inl (env : option Environment) (err : JsError) :
  Cdk.Vpc_fromLookup env = inl err ->
  err = ValidationError VpcLookupEnvironment /\ lacks_region_or_account env = true.
Proof.
  unfold Cdk.Vpc_fromLookup, lacks_region_or_account.
  destruct env as [[[a|] [r|]]|]; intros H; try discriminate H;
    injection H as <-; split; reflexivity.
Qed.

Lemma lacks_false (env : option Environment) :
  lacks_region_or_account env = false <->
  exists e a r, env = Some e /\ account e = Some a /\ region e = Some r.
Proof.
  unfold lacks_region_or_account. split.
  - destruct env as [[[a|] [r|]]|]; intros H; try discriminate H.
    exists {| account := Some a; region := Some r |}, a, r. repeat split.
  - intros (e & a & r & -> & Ha & Hr). destruct e as [ea er]; simpl in *.
    rewrite Ha, Hr. reflexivity.
Qed.

Lemma capacity_inr (d : Z) (u : unit) :
  Cdk.AutoScalingGroup_capacity d d 0 = inr u <-> 0 <= d.
Proof.
  unfold Cdk.AutoScalingGroup_capacity. destruct u. rewrite Z.ltb_irrefl, orb_false_r, orb_diag.
  destruct (Z.ltb_spec d 0) as [Hlt | Hge]; split; intros H;
    try reflexivity; try discriminate H; lia.
Qed.

Lemma capacity_inl (d : Z) (err : JsError) :
  Cdk.AutoScalingGroup_capacity d d 0 = inl err ->
  err = ValidationError GroupCapacity /\ d < 0.
Proof.
  unfold Cdk.AutoScalingGroup_capacity. rewrite Z.ltb_irrefl, orb_false_r, orb_diag.
  destruct (Z.ltb_spec d 0) as [Hlt | Hge]; intros H; [| discriminate H ].
  injection H as <-. split; [ reflexivity | assumption ].
Qed.

Lemma getImage_inl (image : option IMachineImage) (region : option string) (err : JsError) :
  Cdk.getImage image region = inl err -> err = ValidationError MachineImageForRegion.
Proof.
  unfold Cdk.getImage.
  destruct image as [[ | | | | amiMap]|]; destruct region as [r|]; try discriminate.
  destruct (existsb _ amiMap); [ discriminate |].
  intros H. injection H as <-. reflexivity.
Qed.

(** The image the switch leaves passes the check of the launch template
    when it is an Amazon Linux image or the region is in the map. *)
Lemma getImage_of_switch (props : ASGRunnerStackProps) (r : string) :
  platform (type props) = PlatformType.AMAZONLINUX \/ in_linux_ami_map r ->
  Cdk.getImage (machineImage (platform_switch readFileSync props)) (Some r) = inr tt.
Proof.
  intros H. rewrite platform_switch_is_default. unfold case_default; simpl.
  destruct (String.eqb_spec (platform (type props)) PlatformType.AMAZONLINUX) as [Hp | Hp].
  - destruct (String.eqb (version (type props)) "2"); reflexivity.
  - destruct H as [H | [-> | ->]]; [ contradiction | reflexivity | reflexivity ].
Qed.

Lemma spin_down_beta_inl (props : ASGRunnerStackProps) (name : string) (err : JsError) :
  spin_down_beta now props name = inl err ->
  err = RangeError "Invalid time value" /\ stage props = Beta
  /\ 8640000000000000 < Z.abs (now + Date.msPerDay).
Proof.
  unfold spin_down_beta, bind, Date.new.
  change (1 * 24 * 60 * 60 * 1000) with Date.msPerDay.
  destruct (stage props); simpl; try discriminate.
  destruct (Z.leb_spec (Z.abs (now + Date.msPerDay)) 8640000000000000) as [Hle | Hlt];
    simpl; [ discriminate |].
  intros H; injection H as <-. repeat split. assumption.
Qed.

Lemma spin_down_beta_inr (props : ASGRunnerStackProps) (name : string)
    (sched : list CfnScheduledAction) :
  spin_down_beta now props name = inr sched -> clock_ok now props.
Proof.
  intros H Hs.
  destruct (Z.leb_spec (Z.abs (now + Date.msPerDay)) 8640000000000000) as [Hle | Hlt];
    [ exact Hle |].
  exfalso. revert H. unfold spin_down_beta, bind, Date.new.
  change (1 * 24 * 60 * 60 * 1000) with Date.msPerDay.
  rewrite Hs. simpl.
  destruct (Z.leb_spec (Z.abs (now + Date.msPerDay)) 8640000000000000) as [Hle | _];
    simpl; [ lia | discriminate ].
Qed.

(** The calls that a built stack has gone through. *)
Lemma constructor_inr_checks (props : ASGRunnerStackProps) (st : ASGRunnerStack) :
  constructor readFileSync now props = inr st ->
  lacks_region_or_account (env props) = false
  /\ Cdk.getImage (machineImage (platform_switch readFileSync props)) (env_region props)
     = inr tt
  /\ 0 <= desiredInstances (type props)
  /\ clock_ok now props.
Proof.
  intros H. unfold constructor in H. cbv zeta in H.
  apply bind_inr in H as (u0 & _ & H).
  apply bind_inr in H as (u1 & H1 & H).
  apply bind_inr in H as (u2 & H2 & H).
  apply bind_inr in H as (u3 & H3 & H).
  apply bind_inr in H as (sched & Hsd & _).
  cbn [lt_machineImage desiredCapacity maxCapacity minCapacity] in H2, H3.
  destruct u2. repeat split.
  - apply (Vpc_fromLookup_inr _ u1). exact H1.
  - exact H2.
  - apply (capacity_inr _ u3). exact H3.
  - apply (spin_down_beta_inr _ _ _ Hsd).
Qed.

(** What a stack that was built holds, in terms of the switch. *)
Lemma constructor_inr (props : ASGRunnerStackProps) (st : ASGRunnerStack) :
  constructor readFileSync now props = inr st ->
  env props <> None
  /\ spin_down_beta now props (asgName (platform_switch readFileSync props))
     = inr (scheduledActions st)
  /\ lt_instanceType (launchTemplate st) = instanceType (platform_switch readFileSync props)
  /\ lt_machineImage (launchTemplate st) = machineImage (platform_switch readFileSync props)
  /\ lt_userData (launchTemplate st) = userDataString (platform_switch readFileSync props)
  /\ asg_id (asg st) = asgName (platform_switch readFileSync props)
  /\ blockDevices (launchTemplate st) = [rootVolume]
  /\ desiredCapacity (asg st) = desiredInstances (type props)
  /\ maxCapacity (asg st) = desiredInstances (type props)
  /\ minCapacity (asg st) = 0
  /\ updatePolicy (asg st) = rollingUpdate.
Proof.
  intros H. unfold constructor in H. cbv zeta in H.
  apply bind_inr in H as (u0 & H0 & H).
  apply bind_inr in H as (u1 & _ & H).
  apply bind_inr in H as (u2 & _ & H).
  apply bind_inr in H as (u3 & _ & H).
  apply bind_inr in H as (sched & Hsd & H).
  injection H as <-.
  cbn [asg_id] in Hsd.
  cbn [scheduledActions launchTemplate asg lt_instanceType lt_machineImage lt_userData
       asg_id blockDevices desiredCapacity maxCapacity minCapacity updatePolicy].
  repeat split; try exact Hsd.
  intros He. rewrite He in H0. discriminate H0.
Qed.

(** With an environment that has an account and a region, an image the
    region has, a capacity that is not negative and a clock that can be
    dated, the stack is built. *)
Lemma constructor_succeeds (props : ASGRunnerStackProps) (e : Environment)
    (a r : string) :
  env props = Some e ->
  account e = Some a ->
  region e = Some r ->
  platform (type props) = PlatformType.AMAZONLINUX \/ in_linux_ami_map r ->
  0 <= desiredInstances (type props) ->
  clock_ok now props ->
  exists st, constructor readFileSync now props = inr st.
Proof.
  intros He Ha Hr Hi Hd Hc.
  destruct (spin_down_beta_succeeds props (asgName (platform_switch readFileSync props)) Hc)
    as [sched Hsched].
  assert (H1 : Cdk.Vpc_fromLookup (env props) = inr tt).
  { apply Vpc_fromLookup_inr. apply lacks_false. exists e, a, r. auto. }
  assert (H2 : Cdk.getImage (machineImage (platform_switch readFileSync props))
                 (env_region props) = inr tt).
  { unfold env_region. rewrite He, Hr. apply getImage_of_switch. exact Hi. }
  assert (H3 : Cdk.AutoScalingGroup_capacity (desiredInstances (type props))
                 (desiredInstances (type props)) 0 = inr tt).
  { apply capacity_inr. exact Hd. }
  unfold constructor. cbv zeta.
  cbn [lt_machineImage desiredCapacity maxCapacity minCapacity asg_id].
  rewrite H1, H2, H3, Hsched, He.
  eexists. reflexivity.
Qed.



(** The errors of the constructor, in the order of the statements that raise
    them. *)
Lemma constructor_errors (props : ASGRunnerStackProps) (err : JsError) :
  constructor readFileSync now props = inl err ->
  (err = Error "Runner environment is undefined!" /\ env props = None)
  \/ (err = ValidationError VpcLookupEnvironment
      /\ env props <> None /\ lacks_region_or_account (env props) = true)
  \/ (err = ValidationError MachineImageForRegion
      /\ lacks_region_or_account (env props) = false)
  \/ (err = ValidationError GroupCapacity
      /\ lacks_region_or_account (env props) = false
      /\ desiredInstances (type props) < 0)
  \/ (err = RangeError "Invalid time value"
      /\ lacks_region_or_account (env props) = false
      /\ 0 <= desiredInstances (type props)
      /\ stage props = Beta
      /\ 8640000000000000 < Z.abs (now + Date.msPerDay)).
Proof.
  intros H. unfold constructor in H. cbv zeta in H.
  apply bind_inl in H as [H | (u0 & H0 & H)].
  { left. unfold when_ in H. destruct (env props); [ discriminate H |].
    injection H as <-. split; reflexivity. }
  assert (He : env props <> None).
  { intros He. rewrite He in H0. discriminate H0. }
  apply bind_inl in H as [H | (u1 & H1 & H)].
  { right; left. apply Vpc_fromLookup_inl in H as [-> Hl]. repeat split; assumption. }
  apply Vpc_fromLookup_inr in H1.
  apply bind_inl in H as [H | (u2 & H2 & H)].
  { right; right; left. apply getImage_inl in H. split; assumption. }
  cbn [desiredCapacity maxCapacity minCapacity asg_id] in H.
  apply bind_inl in H as [H | (u3 & H3 & H)].
  { right; right; right; left. apply capacity_inl in H as [-> Hd]. repeat split; assumption. }
  apply capacity_inr in H3.
  apply bind_inl in H as [H | (sched & _ & H)]; [| discriminate H ].
  right; right; right; right.
  apply spin_down_beta_inl in H as (-> & Hs & Hlt). repeat split; assumption.
Qed.

End ConstructorFacts.

(** ** Platform dispatch *)

(** C1 (the behaviour of the code): for a MAC runner on arm the MAC clause
    sets mac2.metal, the macOS image lookup and the setup-runner.sh user
    data, but control runs on through the WINDOWS and default clauses, so the
    stack is built with the Linux shape c7g.large, the generic Linux image
    map, the setup-linux-runner.sh user data and the name LinuxASG.  The
    stack is built where the checks of the library pass: the environment has
    an account and a region of the image map, the capacity is not negative
    and the spin-down action can be dated. *)
Theorem mac_arm_stack_is_linux (readFileSync : string -> string) (now : Z)
    (props : ASGRunnerStackProps) (e : Environment) (a r : string) :
  platform (type props) = PlatformType.MAC ->
  arch (type props) = "arm" ->
  env props = Some e ->
  account e = Some a ->
  region e = Some r ->
  in_linux_ami_map r ->
  0 <= desiredInstances (type props) ->
  clock_ok now props ->
  exists st,
    constructor readFileSync now props = inr st
    /\ lt_instanceType (launchTemplate st) = "c7g.large"
    /\ lt_instanceType (launchTemplate st) <> "mac2.metal"
    /\ lt_machineImage (launchTemplate st)
       = Some (genericLinux [ ("us-east-2", "ami-02f1e969ae0fdff65");
                              ("us-east-1", "ami-0d3825b70fa928886") ])
    /\ lt_userData (launchTemplate st) = userData readFileSync props "setup-linux-runner.sh"
    /\ asg_id (asg st) = "LinuxASG".
Proof.
  intros Hp Ha He Hacc Hr Hin Hd Hc.
  destruct (constructor_succeeds readFileSync now props e a r He Hacc Hr
              (or_intror Hin) Hd Hc) as [st Hst].
  exists st. split; [ exact Hst |].
  destruct (constructor_inr _ _ _ _ Hst)
    as (_ & _ & Hi & Hm & Hu & Hn & _).
  rewrite Hi, Hm, Hu, Hn, (platform_switch_MAC _ _ Hp).
  unfold case_default. rewrite Hp, Ha. simpl.
  repeat split. discriminate.
Qed.

Lemma mac_arm_stack_is_linux_witness :
  exists st,
    constructor sample_files sample_now
      (sample_props PlatformType.MAC "arm" "14" Release (Some sample_env)) = inr st
    /\ lt_instanceType (launchTemplate st) = "c7g.large"
    /\ lt_instanceType (launchTemplate st) <> "mac2.metal"
    /\ lt_machineImage (launchTemplate st)
       = Some (genericLinux [ ("us-east-2", "ami-02f1e969ae0fdff65");
                              ("us-east-1", "ami-0d3825b70fa928886") ])
    /\ lt_userData (launchTemplate st)
       = userData sample_files
           (sample_props PlatformType.MAC "arm" "14" Release (Some sample_env))
           "setup-linux-runner.sh"
    /\ asg_id (asg st) = "LinuxASG".
Proof.
  apply (mac_arm_stack_is_linux sample_files sample_now
           (sample_props PlatformType.MAC "arm" "14" Release (Some sample_env))
           sample_env "123" "us-east-1").
  - reflexivity.
  - reflexivity.
  - reflexivity.
  - reflexivity.
  - reflexivity.
  - right; reflexivity.
  - simpl; lia.
  - intros H; discriminate H.
Defined.

(** C2 (the behaviour of the code): for a WINDOWS runner at stage Release
    with an environment that has a region, the WINDOWS clause sets
    m5zn.metal, WindowsASG, the Windows Server 2022 image and the substituted
    yaml, but control runs on into the default clause, so the stack is built
    with c7g.large or c7a.large, LinuxASG, the generic Linux image map and
    the setup-linux-runner.sh user data.  The stack is built where the
    checks of the library pass: the environment has an account too, its
    region is one of the image map and the capacity is not negative. *)
Theorem windows_stack_is_linux (readFileSync : string -> string) (now : Z)
    (props : ASGRunnerStackProps) (e : Environment) (a r : string) :
  platform (type props) = PlatformType.WINDOWS ->
  stage props = Release ->
  env props = Some e ->
  account e = Some a ->
  region e = Some r ->
  in_linux_ami_map r ->
  0 <= desiredInstances (type props) ->
  exists st,
    constructor readFileSync now props = inr st
    /\ lt_instanceType (launchTemplate st)
       = (if String.eqb (arch (type props)) "arm" then "c7g.large" else "c7a.large")
    /\ lt_instanceType (launchTemplate st) <> "m5zn.metal"
    /\ asg_id (asg st) = "LinuxASG"
    /\ lt_machineImage (launchTemplate st)
       <> Some (latestWindows WINDOWS_SERVER_2022_ENGLISH_FULL_BASE)
    /\ lt_userData (launchTemplate st)
       = ("#!/bin/bash" ++ JsString.LF ++ "LABEL_STAGE=release" ++ JsString.LF
          ++ "REPO=" ++ repo (type props) ++ JsString.LF
          ++ "REGION=" ++ r ++ JsString.LF)
         ++ readFileSync "./scripts/setup-linux-runner.sh".
Proof.
  intros Hp Hs He Hacc Hr Hin Hd.
  assert (Hc : clock_ok now props) by (intros H; congruence).
  destruct (constructor_succeeds readFileSync now props e a r He Hacc Hr
              (or_intror Hin) Hd Hc) as [st Hst].
  exists st. split; [ exact Hst |].
  destruct (constructor_inr _ _ _ _ Hst)
    as (_ & _ & Hi & Hm & Hu & Hn & _).
  rewrite Hi, Hm, Hu, Hn, (platform_switch_WINDOWS _ _ Hp).
  unfold case_default, userData, label_stage, env_region.
  rewrite Hp, Hs, He, Hr. simpl.
  repeat split.
  - destruct (String.eqb (arch (type props)) "arm"); discriminate.
  - discriminate.
Qed.

Lemma windows_stack_is_linux_witness :
  exists st,
    constructor sample_files sample_now
      (sample_props PlatformType.WINDOWS "x86" "2022" Release (Some sample_env)) = inr st
    /\ lt_instanceType (launchTemplate st) = "c7a.large"
    /\ lt_instanceType (launchTemplate st) <> "m5zn.metal"
    /\ asg_id (asg st) = "LinuxASG"
    /\ lt_machineImage (launchTemplate st)
       <> Some (latestWindows WINDOWS_SERVER_2022_ENGLISH_FULL_BASE)
    /\ lt_userData (launchTemplate st)
       = ("#!/bin/bash" ++ JsString.LF ++ "LABEL_STAGE=release" ++ JsString.LF
          ++ "REPO=myrepo" ++ JsString.LF
          ++ "REGION=us-east-1" ++ JsString.LF)
         ++ "echo linux".
Proof.
  apply (windows_stack_is_linux sample_files sample_now
           (sample_props PlatformType.WINDOWS "x86" "2022" Release (Some sample_env))
           sample_env "123" "us-east-1").
  - reflexivity.
  - reflexivity.
  - reflexivity.
  - reflexivity.
  - reflexivity.
  - right; reflexivity.
  - simpl; lia.
Defined.

(** C3 (counterexample): a runner whose platform is none of the three the
    switch names, here freebsd, is not rejected: the stack is built, with
    the generic Linux shape, name, user data and image map. *)
Lemma unrecognized_platform_is_built :
  "freebsd" <> PlatformType.MAC
  /\ "freebsd" <> PlatformType.WINDOWS
  /\ "freebsd" <> PlatformType.AMAZONLINUX
  /\ exists st,
       constructor sample_files sample_now
         (sample_props "freebsd" "x86" "14" Release (Some sample_env)) = inr st
       /\ lt_instanceType (launchTemplate st) = "c7a.large"
       /\ asg_id (asg st) = "LinuxASG"
       /\ lt_machineImage (launchTemplate st)
          = Some (genericLinux [ ("us-east-2", "ami-097f74237291abc07");
                                 ("us-east-1", "ami-004f552bba0e5f64f") ]).
Proof.
  repeat split; try discriminate.
  eexists. split; [ reflexivity |]. repeat split.
Qed.

(** C3 (amended): the constructor has no unsupported-platform error.  A
    runner whose platform is none of MAC, WINDOWS and AMAZONLINUX, whatever
    its arch, is handled by the default clause.  When the environment has an
    account and a region of the image map (us-east-2 or us-east-1), the
    desired number of instances is not negative and, at stage Beta, the time
    24 hours after the clock reading is one a date can hold, the stack is
    built with c7g.large for arm and c7a.large otherwise, the name LinuxASG,
    the setup-linux-runner.sh user data and the fixed two-region image
    map. *)
Theorem other_platform_gets_linux_defaults (readFileSync : string -> string) (now : Z)
    (props : ASGRunnerStackProps) (e : Environment) (a r : string) :
  platform (type props) <> PlatformType.MAC ->
  platform (type props) <> PlatformType.WINDOWS ->
  platform (type props) <> PlatformType.AMAZONLINUX ->
  env props = Some e ->
  account e = Some a ->
  region e = Some r ->
  in_linux_ami_map r ->
  0 <= desiredInstances (type props) ->
  clock_ok now props ->
  exists st,
    constructor readFileSync now props = inr st
    /\ lt_instanceType (launchTemplate st)
       = (if String.eqb (arch (type props)) "arm" then "c7g.large" else "c7a.large")
    /\ asg_id (asg st) = "LinuxASG"
    /\ lt_userData (launchTemplate st) = userData readFileSync props "setup-linux-runner.sh"
    /\ lt_machineImage (launchTemplate st)
       = Some (genericLinux
                 [ ("us-east-2",
                    if String.eqb (arch (type props)) "arm" then "ami-02f1e969ae0fdff65"
                    else "ami-097f74237291abc07");
                   ("us-east-1",
                    if String.eqb (arch (type props)) "arm" then "ami-0d3825b70fa928886"
                    else "ami-004f552bba0e5f64f") ]).
Proof.
  intros Hm Hw Ha He Hacc Hr Hin Hd Hc.
  destruct (constructor_succeeds readFileSync now props e a r He Hacc Hr
              (or_intror Hin) Hd Hc) as [st Hst].
  exists st. split; [ exact Hst |].
  destruct (constructor_inr _ _ _ _ Hst)
    as (_ & _ & Hi & Himg & Hu & Hn & _).
  rewrite Hi, Himg, Hu, Hn, (platform_switch_other _ _ Hm Hw).
  unfold case_default; simpl.
  apply String.eqb_neq in Ha. rewrite Ha.
  repeat split.
Qed.

Lemma other_platform_gets_linux_defaults_witness :
  exists st,
    constructor sample_files sample_now
      (sample_props "freebsd" "arm" "14" Beta (Some sample_env)) = inr st
    /\ lt_instanceType (launchTemplate st) = "c7g.large"
    /\ asg_id (asg st) = "LinuxASG"
    /\ lt_userData (launchTemplate st)
       = userData sample_files
           (sample_props "freebsd" "arm" "14" Beta (Some sample_env))
           "setup-linux-runner.sh"
    /\ lt_machineImage (launchTemplate st)
       = Some (genericLinux [ ("us-east-2", "ami-02f1e969ae0fdff65");
                              ("us-east-1", "ami-0d3825b70fa928886") ]).
Proof.
  apply (other_platform_gets_linux_defaults sample_files sample_now
           (sample_props "freebsd" "arm" "14" Beta (Some sample_env)) sample_env
           "123" "us-east-1").
  - discriminate.
  - discriminate.
  - discriminate.
  - reflexivity.
  - reflexivity.
  - reflexivity.
  - right; reflexivity.
  - simpl; lia.
  - intros _. vm_compute. discriminate.
Defined.

(** C6: for an AMAZONLINUX runner the image is the latest Amazon Linux 2
    exactly when the version is the string "2", and the latest Amazon Linux
    2023 for every other version; a stack that is built carries that image. *)
Theorem amazonlinux_image_by_version (readFileSync : string -> string) (now : Z)
    (props : ASGRunnerStackProps) :
  platform (type props) = PlatformType.AMAZONLINUX ->
  (machineImage (platform_switch readFileSync props) = Some latestAmazonLinux2
   <-> version (type props) = "2")
  /\ (machineImage (platform_switch readFileSync props) = Some latestAmazonLinux2023
      <-> version (type props) <> "2")
  /\ (forall st, constructor readFileSync now props = inr st ->
        lt_machineImage (launchTemplate st)
        = Some (if String.eqb (version (type props)) "2" then latestAmazonLinux2
                else latestAmazonLinux2023)).
Proof.
  intros Hp.
  assert (Himg : machineImage (platform_switch readFileSync props)
                 = Some (if String.eqb (version (type props)) "2" then latestAmazonLinux2
                         else latestAmazonLinux2023)).
  { rewrite platform_switch_is_default. unfold case_default; simpl.
    rewrite Hp. reflexivity. }
  rewrite Himg.
  destruct (String.eqb_spec (version (type props)) "2") as [Hv | Hv].
  - repeat split; try congruence.
    intros st Hst. destruct (constructor_inr _ _ _ _ Hst) as (_ & _ & _ & Hm & _).
    rewrite Hm. exact Himg.
  - repeat split; try congruence.
    intros st Hst. destruct (constructor_inr _ _ _ _ Hst) as (_ & _ & _ & Hm & _).
    rewrite Hm. exact Himg.
Qed.

Lemma amazonlinux_image_by_version_witness :
  (machineImage
     (platform_switch sample_files
        (sample_props PlatformType.AMAZONLINUX "arm" "2023" Beta (Some sample_env)))
   = Some latestAmazonLinux2
   <-> "2023" = "2")
  /\ (machineImage
        (platform_switch sample_files
           (sample_props PlatformType.AMAZONLINUX "arm" "2023" Beta (Some sample_env)))
      = Some latestAmazonLinux2023
      <-> "2023" <> "2")
  /\ (forall st,
        constructor sample_files sample_now
          (sample_props PlatformType.AMAZONLINUX "arm" "2023" Beta (Some sample_env))
        = inr st ->
        lt_machineImage (launchTemplate st) = Some latestAmazonLinux2023).
Proof.
  apply (amazonlinux_image_by_version sample_files sample_now
           (sample_props PlatformType.AMAZONLINUX "arm" "2023" Beta (Some sample_env))).
  reflexivity.
Defined.

(** The two versions of the specification's example, built. *)
Lemma amazonlinux_images_built :
  (exists st,
     constructor sample_files sample_now
       (sample_props PlatformType.AMAZONLINUX "x86" "2" Release (Some sample_env)) = inr st
     /\ lt_machineImage (launchTemplate st) = Some latestAmazonLinux2)
  /\ (exists st,
        constructor sample_files sample_now
          (sample_props PlatformType.AMAZONLINUX "arm" "2023" Beta (Some sample_env)) = inr st
        /\ lt_machineImage (launchTemplate st) = Some latestAmazonLinux2023).
Proof.
  split; eexists; (split; [ vm_compute; reflexivity | reflexivity ]).
Qed.

(** ** Invariants of a built stack *)

(** C7: every stack that is built has the single root volume /dev/sda1 of
    100 GiB, whatever the platform, the arch and the version. *)
Theorem root_volume_is_100 (readFileSync : string -> string) (now : Z)
    (props : ASGRunnerStackProps) (st : ASGRunnerStack) :
  constructor readFileSync now props = inr st ->
  blockDevices (launchTemplate st) = [ {| deviceName := "/dev/sda1"; volumeSize := 100 |} ].
Proof.
  intros Hst.
  destruct (constructor_inr _ _ _ _ Hst) as (_ & _ & _ & _ & _ & _ & Hb & _).
  exact Hb.
Qed.

Lemma root_volume_is_100_witness :
  exists st,
    constructor sample_files sample_now
      (sample_props PlatformType.MAC "x86" "14.2" Beta (Some sample_env)) = inr st
    /\ blockDevices (launchTemplate st)
       = [ {| deviceName := "/dev/sda1"; volumeSize := 100 |} ].
Proof.
  eexists. split.
  - vm_compute. reflexivity.
  - apply (root_volume_is_100 sample_files sample_now
             (sample_props PlatformType.MAC "x86" "14.2" Beta (Some sample_env))).
    vm_compute. reflexivity.
Defined.

(** C10: every stack that is built has an auto scaling group whose desired
    and maximum capacity are the runner type's desiredInstances and whose
    minimum capacity is 0. *)
Theorem asg_capacity_bounds (readFileSync : string -> string) (now : Z)
    (props : ASGRunnerStackProps) (st : ASGRunnerStack) :
  constructor readFileSync now props = inr st ->
  desiredCapacity (asg st) = desiredInstances (type props)
  /\ maxCapacity (asg st) = desiredInstances (type props)
  /\ minCapacity (asg st) = 0.
Proof.
  intros Hst.
  destruct (constructor_inr _ _ _ _ Hst)
    as (_ & _ & _ & _ & _ & _ & _ & Hd & Hmax & Hmin & _).
  repeat split; assumption.
Qed.

Lemma asg_capacity_bounds_witness :
  exists st,
    constructor sample_files sample_now
      (sample_props PlatformType.WINDOWS "x86" "2022" Release (Some sample_env)) = inr st
    /\ desiredCapacity (asg st) = 3
    /\ maxCapacity (asg st) = 3
    /\ minCapacity (asg st) = 0.
Proof.
  eexists. split.
  - vm_compute. reflexivity.
  - apply (asg_capacity_bounds sample_files sample_now
             (sample_props PlatformType.WINDOWS "x86" "2022" Release (Some sample_env))).
    vm_compute. reflexivity.
Defined.

(** ** The beta spin-down action *)

(** A day later is the next day number at the same time of day. *)
Lemma a_day_later (tv : Z) :
  (tv + Date.msPerDay) / Date.msPerDay = tv / Date.msPerDay + 1
  /\ (tv + Date.msPerDay) mod Date.msPerDay = tv mod Date.msPerDay.
Proof.
  unfold Date.msPerDay. split.
  - replace (tv + 86400000) with (tv + 1 * 86400000) by lia.
    rewrite Z.div_add by lia. reflexivity.
  - replace (tv + 86400000) with (tv + 1 * 86400000) by lia.
    rewrite Z.mod_add by lia. reflexivity.
Qed.

(** C8: at stage Beta a stack that is built holds exactly one scheduled
    action, which sets the desired capacity to 0 and starts 24 hours after
    the time the stack is built; at any other stage it holds no scheduled
    action. *)
Theorem spin_down_only_at_beta (readFileSync : string -> string) (now : Z)
    (props : ASGRunnerStackProps) (st : ASGRunnerStack) :
  constructor readFileSync now props = inr st ->
  (stage props = Beta ->
   scheduledActions st
   = [ {| sa_id := "SpinDownBetaInstances";
          autoScalingGroupName := asg_id (asg st);
          startTime := Date.iso_of_time_value (now + 24 * 60 * 60 * 1000);
          sa_desiredCapacity := 0 |} ])
  /\ (stage props <> Beta -> scheduledActions st = []).
Proof.
  intros Hst.
  destruct (constructor_inr _ _ _ _ Hst) as (_ & Hsd & _ & _ & _ & Hn & _).
  destruct (constructor_inr_checks _ _ _ _ Hst) as (_ & _ & _ & Hc).
  split; intros Hs.
  - rewrite (spin_down_beta_at_Beta now props _ Hs (Hc Hs)) in Hsd.
    injection Hsd as <-. rewrite Hn. reflexivity.
  - rewrite (spin_down_beta_other_stage now props _ Hs) in Hsd.
    injection Hsd as <-. reflexivity.
Qed.

Lemma spin_down_only_at_beta_witness :
  exists st,
    constructor sample_files sample_now
      (sample_props PlatformType.AMAZONLINUX "arm" "2023" Beta (Some sample_env)) = inr st
    /\ (Beta = Beta ->
        scheduledActions st
        = [ {| sa_id := "SpinDownBetaInstances";
               autoScalingGroupName := "LinuxASG";
               startTime := "2026-11-04T02:04:05.123Z";
               sa_desiredCapacity := 0 |} ])
    /\ (Beta <> Beta -> scheduledActions st = []).
Proof.
  eexists. split.
  - vm_compute. reflexivity.
  - apply (spin_down_only_at_beta sample_files sample_now
             (sample_props PlatformType.AMAZONLINUX "arm" "2023" Beta (Some sample_env))).
    vm_compute. reflexivity.
Defined.

(** The stack of the same runner built at stage Release and at stage Prod
    holds no scheduled action. *)
Lemma spin_down_sample :
  (exists st,
     constructor sample_files sample_now
       (sample_props PlatformType.AMAZONLINUX "arm" "2023" Release (Some sample_env))
     = inr st
     /\ scheduledActions st = [])
  /\ (exists st,
        constructor sample_files sample_now
          (sample_props PlatformType.AMAZONLINUX "arm" "2023" Prod (Some sample_env))
        = inr st
        /\ scheduledActions st = []).
Proof.
  split; eexists; (split; [ vm_compute; reflexivity | reflexivity ]).
Qed.

(** ** The environment check *)

Lemma constructor_without_env (readFileSync : string -> string) (now : Z)
    (props : ASGRunnerStackProps) :
  env props = None ->
  constructor readFileSync now props = inl (Error "Runner environment is undefined!").
Proof.
  intros He. unfold constructor. cbv zeta. rewrite He. reflexivity.
Qed.

Lemma constructor_with_partial_env (readFileSync : string -> string) (now : Z)
    (props : ASGRunnerStackProps) (e : Environment) :
  env props = Some e ->
  account e = None \/ region e = None ->
  constructor readFileSync now props = inl (ValidationError VpcLookupEnvironment).
Proof.
  intros He Hl. unfold constructor. cbv zeta. rewrite He.
  destruct e as [[a|] [r|]]; simpl in Hl; try reflexivity.
  destruct Hl as [Hl | Hl]; discriminate Hl.
Qed.

(** C9: the constructor raises an error for the environment exactly when the
    environment has no region or no account.  For an undefined environment
    it is the constructor's own error, that the runner environment is
    undefined; for an environment object that misses the account or the
    region it is the validation error of the VPC lookup; for an environment
    that provides both, no error the constructor raises is one of the
    two. *)
Theorem environment_error_iff_no_region_or_account (readFileSync : string -> string)
    (now : Z) (props : ASGRunnerStackProps) :
  ((exists err, constructor readFileSync now props = inl err
                /\ environment_error err = true)
   <-> lacks_region_or_account (env props) = true)
  /\ (env props = None ->
      constructor readFileSync now props = inl (Error "Runner environment is undefined!"))
  /\ (forall e, env props = Some e ->
        account e = None \/ region e = None ->
        constructor readFileSync now props = inl (ValidationError VpcLookupEnvironment))
  /\ (forall e a r, env props = Some e -> account e = Some a -> region e = Some r ->
        forall err, constructor readFileSync now props = inl err ->
                    environment_error err = false).
Proof.
  split; [ split |].
  - intros (err & Herr & Henv).
    destruct (constructor_errors _ _ _ _ Herr)
      as [[_ He] | [(_ & _ & Hl) | [(-> & _) | [(-> & _) | (-> & _)]]]];
      try discriminate Henv.
    + rewrite He. reflexivity.
    + exact Hl.
  - intros Hl. destruct (env props) as [e|] eqn:He.
    + exists (ValidationError VpcLookupEnvironment). split; [| reflexivity ].
      apply (constructor_with_partial_env _ _ _ e He).
      destruct e as [[a|] [r|]]; simpl in *; auto. discriminate Hl.
    + exists (Error "Runner environment is undefined!"). split; [| reflexivity ].
      apply constructor_without_env. exact He.
  - split; [ apply constructor_without_env |].
    split; [ intros e; apply constructor_with_partial_env |].
    intros e a r He Ha Hr err Herr.
    assert (Hl : lacks_region_or_account (env props) = false).
    { apply lacks_false. exists e, a, r. auto. }
    destruct (constructor_errors _ _ _ _ Herr)
      as [[_ He'] | [(_ & _ & Hl') | [(-> & _) | [(-> & _) | (-> & _)]]]];
      try reflexivity; congruence.
Qed.

(** An undefined environment, an empty environment object, one without a
    region and one without an account all raise; the sample environment
    does not. *)
Lemma environment_error_samples :
  constructor sample_files sample_now
    (sample_props PlatformType.AMAZONLINUX "arm" "2023" Release None)
  = inl (Error "Runner environment is undefined!")
  /\ constructor sample_files sample_now
       (sample_props PlatformType.AMAZONLINUX "arm" "2023" Release
          (Some {| account := None; region := None |}))
     = inl (ValidationError VpcLookupEnvironment)
  /\ constructor sample_files sample_now
       (sample_props PlatformType.AMAZONLINUX "arm" "2023" Release
          (Some {| account := Some "123"; region := None |}))
     = inl (ValidationError VpcLookupEnvironment)
  /\ constructor sample_files sample_now
       (sample_props PlatformType.AMAZONLINUX "arm" "2023" Release
          (Some {| account := None; region := Some "us-east-1" |}))
     = inl (ValidationError VpcLookupEnvironment)
  /\ exists st,
       constructor sample_files sample_now
         (sample_props PlatformType.AMAZONLINUX "arm" "2023" Release (Some sample_env))
       = inr st.
Proof.
  repeat split; try reflexivity. eexists. vm_compute. reflexivity.
Qed.

(** ** The models of the JavaScript library *)

Example replace_first_only :
  JsString.replace "<REPO>" "finch" "a <REPO> b <REPO>" = "a finch b <REPO>".
Proof. reflexivity. Qed.

Example replace_dollar_patterns :
  JsString.replace "<REPO>" "x$&y$$z$1" "a <REPO> b" = "a x<REPO>y$z$1 b".
Proof. reflexivity. Qed.

Example split_head_major :
  JsString.split_head "."%char "14.2.1" = "14" /\ JsString.split_head "."%char "2023" = "2023".
Proof. split; reflexivity. Qed.

Example iso_epoch : Date.iso_of_time_value 0 = "1970-01-01T00:00:00.000Z".
Proof. reflexivity. Qed.

Example iso_before_epoch : Date.iso_of_time_value (-1) = "1969-12-31T23:59:59.999Z".
Proof. vm_compute. reflexivity. Qed.

Example iso_leap_day : Date.iso_of_time_value 951782400000 = "2000-02-29T00:00:00.000Z".
Proof. vm_compute. reflexivity. Qed.

Example iso_sample_now : Date.iso_of_time_value sample_now = "2026-11-03T02:04:05.123Z".
Proof. vm_compute. reflexivity. Qed.

Example iso_last_date :
  Date.toISOString (Date.new 8640000000000000) = inr "+275760-09-13T00:00:00.000Z"
  /\ Date.toISOString (Date.new 8640000000000001) = inl (RangeError "Invalid time value").
Proof. split; vm_compute; reflexivity. Qed.

Example resource_group_name_sample :
  exists st,
    constructor sample_files sample_now
      {| env := Some sample_env; stage := Release; licenseArn := None;
         type := {| platform := PlatformType.AMAZONLINUX; arch := "arm"; version := "2023";
                    repo := "foo"; desiredInstances := 0 |} |} = inr st
    /\ resourceGroupName st = "foo-amazonlinux-2023-armHostGroup".
Proof. eexists. split; [ vm_compute; reflexivity | reflexivity ]. Qed.

(** * Further properties *)

(** ** Environment configuration: outcomes *)

(** What the constructor returns, by the shape of the file. *)
Lemma env_config_cases (configFile : EnvConfig.ConfigFile) (c : EnvConfig.EnvConfigClass) :
  EnvConfig.constructor configFile = inr c ->
  (exists d, EnvConfig.cf_envDev configFile = Some d
             /\ c = EnvConfig.mkEnvConfigClass (Some true) (Some d) (Some d) None None)
  \/ (exists p b pr r,
        configFile = EnvConfig.mkConfigFile None (Some p) (Some b) (Some pr) (Some r)
        /\ c = EnvConfig.mkEnvConfigClass None (Some p) (Some b) (Some pr) (Some r)).
Proof.
  destruct configFile as [dev p b pr r].
  unfold EnvConfig.constructor; simpl.
  destruct dev as [d|].
  - intros H; injection H as <-. left. exists d. split; reflexivity.
  - destruct p as [p|]; [| discriminate ].
    destruct b as [b|]; [| discriminate ].
    destruct pr as [pr|]; [| discriminate ].
    destruct r as [r|]; [| discriminate ].
    simpl. intros H; injection H as <-. right. exists p, b, pr, r. split; reflexivity.
Qed.

(** X1: the constructor returns an object exactly when envDev is present or
    all of envPipeline, envBeta, envProd and envRelease are present. *)
Theorem env_config_succeeds_iff (configFile : EnvConfig.ConfigFile) :
  (exists c, EnvConfig.constructor configFile = inr c)
  <-> (EnvConfig.cf_envDev configFile <> None
       \/ (EnvConfig.cf_envPipeline configFile <> None
           /\ EnvConfig.cf_envBeta configFile <> None
           /\ EnvConfig.cf_envProd configFile <> None
           /\ EnvConfig.cf_envRelease configFile <> None)).
Proof.
  split.
  - intros [c Hc]. destruct (env_config_cases _ _ Hc) as [(d & Hd & _) | (p & b & pr & r & Hf & _)].
    + left. rewrite Hd. discriminate.
    + right. subst configFile. simpl. repeat split; discriminate.
  - destruct configFile as [dev p b pr r]; simpl.
    intros [Hd | (Hp & Hb & Hpr & Hr)].
    + destruct dev as [d|]; [| congruence ]. eexists. reflexivity.
    + destruct dev as [d|]; [ eexists; reflexivity |].
      destruct p as [p|]; [| congruence ].
      destruct b as [b|]; [| congruence ].
      destruct pr as [pr|]; [| congruence ].
      destruct r as [r|]; [| congruence ].
      eexists. reflexivity.
Qed.

(** X2: in every object the constructor returns, envPipeline and envBeta are
    defined; envProd and envRelease are both defined or both undefined, and
    they are undefined exactly when isDev is true, in which case envBeta is
    envPipeline; isDev is never false. *)
Theorem env_config_result_shape (configFile : EnvConfig.ConfigFile)
    (c : EnvConfig.EnvConfigClass) :
  EnvConfig.constructor configFile = inr c ->
  EnvConfig.envPipeline c <> None
  /\ EnvConfig.envBeta c <> None
  /\ (EnvConfig.envProd c = None <-> EnvConfig.envRelease c = None)
  /\ (EnvConfig.isDev c = Some true <-> EnvConfig.envProd c = None)
  /\ (EnvConfig.isDev c = Some true -> EnvConfig.envBeta c = EnvConfig.envPipeline c)
  /\ EnvConfig.isDev c <> Some false.
Proof.
  intros Hc.
  destruct (env_config_cases _ _ Hc) as [(d & _ & ->) | (p & b & pr & r & _ & ->)]; simpl.
  - repeat split; intros; try discriminate; reflexivity.
  - repeat split; intros; discriminate.
Qed.

Lemma env_config_result_shape_witness :
  exists c,
    EnvConfig.constructor
      (EnvConfig.mkConfigFile None (Some sample_env) (Some sample_env) (Some sample_env)
         (Some sample_env)) = inr c
    /\ EnvConfig.envPipeline c <> None
    /\ EnvConfig.envBeta c <> None
    /\ (EnvConfig.envProd c = None <-> EnvConfig.envRelease c = None)
    /\ (EnvConfig.isDev c = Some true <-> EnvConfig.envProd c = None)
    /\ (EnvConfig.isDev c = Some true -> EnvConfig.envBeta c = EnvConfig.envPipeline c)
    /\ EnvConfig.isDev c <> Some false.
Proof.
  eexists. split.
  - reflexivity.
  - apply (env_config_result_shape
             (EnvConfig.mkConfigFile None (Some sample_env) (Some sample_env)
                (Some sample_env) (Some sample_env))).
    reflexivity.
Defined.

(** X3: without envDev, an object that is returned holds the four
    environments of the file as they are, each defined, and its isDev is left
    undefined. *)
Theorem env_config_non_dev_copies (configFile : EnvConfig.ConfigFile)
    (c : EnvConfig.EnvConfigClass) :
  EnvConfig.cf_envDev configFile = None ->
  EnvConfig.constructor configFile = inr c ->
  EnvConfig.isDev c = None
  /\ EnvConfig.envPipeline c = EnvConfig.cf_envPipeline configFile
  /\ EnvConfig.envBeta c = EnvConfig.cf_envBeta configFile
  /\ EnvConfig.envProd c = EnvConfig.cf_envProd configFile
  /\ EnvConfig.envRelease c = EnvConfig.cf_envRelease configFile
  /\ EnvConfig.envProd c <> None
  /\ EnvConfig.envRelease c <> None.
Proof.
  intros Hd Hc.
  destruct (env_config_cases _ _ Hc) as [(d & Hd' & _) | (p & b & pr & r & -> & ->)].
  - congruence.
  - simpl. repeat split; discriminate.
Qed.

Lemma env_config_non_dev_copies_witness :
  exists c,
    EnvConfig.constructor
      (EnvConfig.mkConfigFile None (Some sample_env)
         (Some {| account := Some "456"; region := Some "us-west-2" |})
         (Some sample_env) (Some sample_env)) = inr c
    /\ EnvConfig.isDev c = None
    /\ EnvConfig.envPipeline c = Some sample_env
    /\ EnvConfig.envBeta c = Some {| account := Some "456"; region := Some "us-west-2" |}
    /\ EnvConfig.envProd c = Some sample_env
    /\ EnvConfig.envRelease c = Some sample_env
    /\ EnvConfig.envProd c <> None
    /\ EnvConfig.envRelease c <> None.
Proof.
  eexists. split.
  - reflexivity.
  - apply (env_config_non_dev_copies
             (EnvConfig.mkConfigFile None (Some sample_env)
                (Some {| account := Some "456"; region := Some "us-west-2" |})
                (Some sample_env) (Some sample_env))).
    + reflexivity.
    + reflexivity.
Defined.

(** X4: the constructor raises only when envDev is absent, and every error
    it raises names a required field that is missing from the file, the
    earliest one in the order of the checks. *)
Theorem env_config_error_names_missing (configFile : EnvConfig.ConfigFile) (err : JsError) :
  EnvConfig.constructor configFile = inl err ->
  EnvConfig.cf_envDev configFile = None
  /\ exists field,
       err = Error ("Error: " ++ field ++ " must be specified.")
       /\ EnvConfig.first_missing configFile = Some field
       /\ In (field, None) (EnvConfig.required_fields configFile).
Proof.
  destruct configFile as [dev p b pr r].
  unfold EnvConfig.constructor, EnvConfig.first_missing; simpl.
  destruct dev as [d|]; [ discriminate |].
  destruct p as [p|]; simpl.
  2:{ intros H; injection H as <-. split; [ reflexivity |].
      exists "envPipeline". repeat split. left; reflexivity. }
  destruct b as [b|]; simpl.
  2:{ intros H; injection H as <-. split; [ reflexivity |].
      exists "envBeta". repeat split. right; left; reflexivity. }
  destruct pr as [pr|]; simpl.
  2:{ intros H; injection H as <-. split; [ reflexivity |].
      exists "envProd". repeat split. right; right; left; reflexivity. }
  destruct r as [r|]; simpl.
  2:{ intros H; injection H as <-. split; [ reflexivity |].
      exists "envRelease". repeat split. right; right; right; left; reflexivity. }
  discriminate.
Qed.

Lemma env_config_error_names_missing_witness :
  EnvConfig.cf_envDev (EnvConfig.mkConfigFile None (Some sample_env) (Some sample_env) None None)
  = None
  /\ exists field,
       Error "Error: envProd must be specified."
       = Error ("Error: " ++ field ++ " must be specified.")
       /\ EnvConfig.first_missing
            (EnvConfig.mkConfigFile None (Some sample_env) (Some sample_env) None None)
          = Some field
       /\ In (field, None)
            (EnvConfig.required_fields
               (EnvConfig.mkConfigFile None (Some sample_env) (Some sample_env) None None)).
Proof.
  apply (env_config_error_names_missing
           (EnvConfig.mkConfigFile None (Some sample_env) (Some sample_env) None None)
           (Error "Error: envProd must be specified.")).
  reflexivity.
Defined.

(** ** The runner stack: outcomes *)

(** The remaining parts of a stack that was built. *)
Lemma constructor_inr_parts (readFileSync : string -> string) (now : Z)
    (props : ASGRunnerStackProps) (st : ASGRunnerStack) :
  constructor readFileSync now props = inr st ->
  resourceGroupName st
  = repo (type props) ++ "-" ++ platform (type props) ++ "-"
      ++ JsString.split_head "."%char (version (type props))
      ++ "-" ++ arch (type props) ++ "HostGroup"
  /\ secretResources st
     = [ "arn:aws:secretsmanager:" ++ JsString.interpolate (env_region props) ++ ":"
           ++ JsString.interpolate (env_account props) ++ ":secret:"
           ++ repo (type props) ++ "-runner-reg-key*" ]
  /\ licenseSpecifications (launchTemplate st) = license_specifications props
  /\ lt_id (launchTemplate st)
     = asgName (platform_switch readFileSync props) ++ "LaunchTemplate"
  /\ keyPairId (launchTemplate st)
     = asgName (platform_switch readFileSync props) ++ "KeyPair"
  /\ keyPairName (launchTemplate st) = "runner-key"
  /\ requireImdsv2 (launchTemplate st) = true
  /\ tenancy (launchTemplate st) = "host"
  /\ healthCheckGraceSeconds (asg st) = 3600
  /\ managedPolicies st
     = [ "AmazonSSMManagedInstanceCore"; "AutoScalingFullAccess";
         "ResourceGroupsandTagEditorFullAccess" ].
Proof.
  intros H. unfold constructor in H. cbv zeta in H.
  apply bind_inr in H as (u0 & _ & H).
  apply bind_inr in H as (u1 & _ & H).
  apply bind_inr in H as (u2 & _ & H).
  apply bind_inr in H as (u3 & _ & H).
  apply bind_inr in H as (sched & _ & H).
  injection H as <-.
  cbn [resourceGroupName secretResources launchTemplate licenseSpecifications lt_id
       keyPairId keyPairName requireImdsv2 tenancy healthCheckGraceSeconds asg
       managedPolicies asg_id].
  repeat split.
Qed.

(** X5: the stack is built whenever the environment has an account and a
    region, the platform is AMAZONLINUX or the region is one of the image map
    (us-east-2, us-east-1), the desired number of instances is not negative
    and, at stage Beta, the time 24 hours after the clock reading is one a
    date can hold; and a stack is built only with an environment that has
    both, a number that is not negative and such a clock. *)
Theorem stack_built_when (readFileSync : string -> string) (now : Z)
    (props : ASGRunnerStackProps) :
  (forall e a r,
     env props = Some e -> account e = Some a -> region e = Some r ->
     platform (type props) = PlatformType.AMAZONLINUX \/ r = "us-east-2" \/ r = "us-east-1" ->
     0 <= desiredInstances (type props) ->
     (stage props = Beta -> Z.abs (now + 24 * 60 * 60 * 1000) <= 8640000000000000) ->
     exists st, constructor readFileSync now props = inr st)
  /\ (forall st,
        constructor readFileSync now props = inr st ->
        (exists e a r, env props = Some e /\ account e = Some a /\ region e = Some r)
        /\ 0 <= desiredInstances (type props)
        /\ (stage props = Beta -> Z.abs (now + 24 * 60 * 60 * 1000) <= 8640000000000000)).
Proof.
  split.
  - intros e a r He Ha Hr Hi Hd Hc.
    apply (constructor_succeeds readFileSync now props e a r He Ha Hr Hi Hd Hc).
  - intros st Hst.
    destruct (constructor_inr_checks _ _ _ _ Hst) as (Hl & _ & Hd & Hc).
    split; [ apply lacks_false; exact Hl |]. split; [ exact Hd | exact Hc ].
Qed.

(** The sample runner is built at stage Beta in us-east-1; in us-west-2 it
    is built as an Amazon Linux runner and refused as a mac runner; a
    negative number of instances is refused. *)
Lemma stack_built_samples :
  (exists st,
     constructor sample_files sample_now
       (sample_props PlatformType.MAC "arm" "14" Beta (Some sample_env)) = inr st)
  /\ (exists st,
        constructor sample_files sample_now
          (sample_props PlatformType.AMAZONLINUX "arm" "2023" Beta
             (Some {| account := Some "123"; region := Some "us-west-2" |})) = inr st)
  /\ constructor sample_files sample_now
       (sample_props PlatformType.MAC "arm" "14" Beta
          (Some {| account := Some "123"; region := Some "us-west-2" |}))
     = inl (ValidationError MachineImageForRegion)
  /\ constructor sample_files sample_now
       {| env := Some sample_env; stage := Release; licenseArn := None;
          type := {| platform := PlatformType.AMAZONLINUX; arch := "arm"; version := "2023";
                     repo := "myrepo"; desiredInstances := -1 |} |}
     = inl (ValidationError GroupCapacity).
Proof.
  split; [ eexists; vm_compute; reflexivity |].
  split; [ eexists; vm_compute; reflexivity |].
  split; reflexivity.
Qed.


(** At the end of the range of dates, at stage Beta: the range error in
    us-east-1, and the error of the VPC lookup for an empty environment
    object. *)
Lemma stack_range_error_samples :
  constructor sample_files 8640000000000000
    (sample_props PlatformType.AMAZONLINUX "arm" "2023" Beta (Some sample_env))
  = inl (RangeError "Invalid time value")
  /\ constructor sample_files 8640000000000000
       (sample_props PlatformType.AMAZONLINUX "arm" "2023" Beta
          (Some {| account := None; region := None |}))
     = inl (ValidationError VpcLookupEnvironment)
  /\ exists st,
       constructor sample_files 8640000000000000
         (sample_props PlatformType.AMAZONLINUX "arm" "2023" Release (Some sample_env))
       = inr st.
Proof.
  split; [ vm_compute; reflexivity |]. split; [ reflexivity |].
  eexists. vm_compute. reflexivity.
Qed.

(** ** The runner stack: what every platform gets *)

(** X7: whatever the platform, a stack that is built has the Linux names
    LinuxASG, LinuxASGLaunchTemplate and LinuxASGKeyPair with the key pair
    runner-key, and its instance type is c7g.large when the arch is exactly
    the string arm and c7a.large for every other arch; it is never one of the
    metal types. *)
Theorem every_stack_is_named_linux (readFileSync : string -> string) (now : Z)
    (props : ASGRunnerStackProps) (st : ASGRunnerStack) :
  constructor readFileSync now props = inr st ->
  asg_id (asg st) = "LinuxASG"
  /\ lt_id (launchTemplate st) = "LinuxASGLaunchTemplate"
  /\ keyPairId (launchTemplate st) = "LinuxASGKeyPair"
  /\ keyPairName (launchTemplate st) = "runner-key"
  /\ (arch (type props) = "arm" -> lt_instanceType (launchTemplate st) = "c7g.large")
  /\ (arch (type props) <> "arm" -> lt_instanceType (launchTemplate st) = "c7a.large")
  /\ ~ In (lt_instanceType (launchTemplate st)) ["mac1.metal"; "mac2.metal"; "m5zn.metal"].
Proof.
  intros Hst.
  destruct (constructor_inr _ _ _ _ Hst) as (_ & _ & Hi & _ & _ & Hn & _).
  destruct (constructor_inr_parts _ _ _ _ Hst) as (_ & _ & _ & Hlt & Hkp & Hkn & _).
  rewrite Hi, Hn, Hlt, Hkp, Hkn, platform_switch_is_default.
  unfold case_default; simpl.
  destruct (String.eqb_spec (arch (type props)) "arm") as [Ha | Ha].
  - repeat split; try congruence.
    intros [H | [H | [H | []]]]; discriminate H.
  - repeat split; try congruence.
    intros [H | [H | [H | []]]]; discriminate H.
Qed.

Lemma every_stack_is_named_linux_witness :
  exists st,
    constructor sample_files sample_now
      (sample_props PlatformType.WINDOWS "arm64" "2022" Beta (Some sample_env)) = inr st
    /\ asg_id (asg st) = "LinuxASG"
    /\ lt_id (launchTemplate st) = "LinuxASGLaunchTemplate"
    /\ keyPairId (launchTemplate st) = "LinuxASGKeyPair"
    /\ keyPairName (launchTemplate st) = "runner-key"
    /\ ("arm64" = "arm" -> lt_instanceType (launchTemplate st) = "c7g.large")
    /\ ("arm64" <> "arm" -> lt_instanceType (launchTemplate st) = "c7a.large")
    /\ ~ In (lt_instanceType (launchTemplate st)) ["mac1.metal"; "mac2.metal"; "m5zn.metal"].
Proof.
  eexists. split.
  - vm_compute. reflexivity.
  - apply (every_stack_is_named_linux sample_files sample_now
             (sample_props PlatformType.WINDOWS "arm64" "2022" Beta (Some sample_env))).
    vm_compute. reflexivity.
Defined.

(** X8: the image of a stack that is built is an Amazon Linux image exactly
    when the platform is AMAZONLINUX, and otherwise the region map with the
    arm images for the arch arm and the x86 images for every other arch; it
    is never the macOS lookup and never the Windows image. *)
Theorem every_stack_has_linux_image (readFileSync : string -> string) (now : Z)
    (props : ASGRunnerStackProps) (st : ASGRunnerStack) :
  constructor readFileSync now props = inr st ->
  (platform (type props) = PlatformType.AMAZONLINUX ->
   lt_machineImage (launchTemplate st) = Some latestAmazonLinux2
   \/ lt_machineImage (launchTemplate st) = Some latestAmazonLinux2023)
  /\ (platform (type props) <> PlatformType.AMAZONLINUX ->
      lt_machineImage (launchTemplate st)
      = Some (genericLinux
                [ ("us-east-2",
                   if String.eqb (arch (type props)) "arm" then "ami-02f1e969ae0fdff65"
                   else "ami-097f74237291abc07");
                  ("us-east-1",
                   if String.eqb (arch (type props)) "arm" then "ami-0d3825b70fa928886"
                   else "ami-004f552bba0e5f64f") ]))
  /\ (forall name filters,
        lt_machineImage (launchTemplate st) <> Some (LookupMachineImage name filters))
  /\ (forall v, lt_machineImage (launchTemplate st) <> Some (latestWindows v)).
Proof.
  intros Hst.
  destruct (constructor_inr _ _ _ _ Hst) as (_ & _ & _ & Hm & _).
  rewrite Hm, platform_switch_is_default. unfold case_default; simpl.
  destruct (String.eqb_spec (platform (type props)) PlatformType.AMAZONLINUX) as [Hp | Hp].
  - destruct (String.eqb (version (type props)) "2");
      repeat split; intros; try congruence; auto.
  - repeat split; intros; try congruence; try discriminate.
Qed.

Lemma every_stack_has_linux_image_witness :
  exists st,
    constructor sample_files sample_now
      (sample_props PlatformType.MAC "x86" "13" Release (Some sample_env)) = inr st
    /\ (PlatformType.MAC = PlatformType.AMAZONLINUX ->
        lt_machineImage (launchTemplate st) = Some latestAmazonLinux2
        \/ lt_machineImage (launchTemplate st) = Some latestAmazonLinux2023)
    /\ (PlatformType.MAC <> PlatformType.AMAZONLINUX ->
        lt_machineImage (launchTemplate st)
        = Some (genericLinux [ ("us-east-2", "ami-097f74237291abc07");
                               ("us-east-1", "ami-004f552bba0e5f64f") ]))
    /\ (forall name filters,
          lt_machineImage (launchTemplate st) <> Some (LookupMachineImage name filters))
    /\ (forall v, lt_machineImage (launchTemplate st) <> Some (latestWindows v)).
Proof.
  eexists. split.
  - vm_compute. reflexivity.
  - apply (every_stack_has_linux_image sample_files sample_now
             (sample_props PlatformType.MAC "x86" "13" Release (Some sample_env))).
    vm_compute. reflexivity.
Defined.

(** X9: the user data of a stack that is built is the bash preamble followed
    by the text of setup-linux-runner.sh, and its LABEL_STAGE line reads
    release exactly when the stage is Release; at every other stage, Prod
    as well as Beta, it reads test. *)
Theorem user_data_label_stage (readFileSync : string -> string) (now : Z)
    (props : ASGRunnerStackProps) (st : ASGRunnerStack) :
  constructor readFileSync now props = inr st ->
  (lt_userData (launchTemplate st)
   = ("#!/bin/bash" ++ JsString.LF ++ "LABEL_STAGE=release" ++ JsString.LF
      ++ "REPO=" ++ repo (type props) ++ JsString.LF
      ++ "REGION=" ++ JsString.interpolate (env_region props) ++ JsString.LF)
     ++ readFileSync "./scripts/setup-linux-runner.sh"
   <-> stage props = Release)
  /\ (lt_userData (launchTemplate st)
      = ("#!/bin/bash" ++ JsString.LF ++ "LABEL_STAGE=test" ++ JsString.LF
         ++ "REPO=" ++ repo (type props) ++ JsString.LF
         ++ "REGION=" ++ JsString.interpolate (env_region props) ++ JsString.LF)
        ++ readFileSync "./scripts/setup-linux-runner.sh"
      <-> stage props <> Release).
Proof.
  intros Hst.
  destruct (constructor_inr _ _ _ _ Hst) as (_ & _ & _ & _ & Hu & _).
  rewrite Hu, platform_switch_is_default.
  unfold case_default, userData, label_stage; simpl.
  destruct (stage props); simpl; repeat split; intros H;
    try reflexivity; try discriminate H; try congruence.
Qed.

Lemma user_data_label_stage_witness :
  exists st,
    constructor sample_files sample_now
      (sample_props PlatformType.AMAZONLINUX "arm" "2023" Prod (Some sample_env)) = inr st
    /\ (lt_userData (launchTemplate st)
        = ("#!/bin/bash" ++ JsString.LF ++ "LABEL_STAGE=release" ++ JsString.LF
           ++ "REPO=myrepo" ++ JsString.LF ++ "REGION=us-east-1" ++ JsString.LF)
          ++ "echo linux"
        <-> Prod = Release)
    /\ (lt_userData (launchTemplate st)
        = ("#!/bin/bash" ++ JsString.LF ++ "LABEL_STAGE=test" ++ JsString.LF
           ++ "REPO=myrepo" ++ JsString.LF ++ "REGION=us-east-1" ++ JsString.LF)
          ++ "echo linux"
        <-> Prod <> Release).
Proof.
  eexists. split.
  - vm_compute. reflexivity.
  - apply (user_data_label_stage sample_files sample_now
             (sample_props PlatformType.AMAZONLINUX "arm" "2023" Prod (Some sample_env))).
    vm_compute. reflexivity.
Defined.

(** X10: the text undefined, which the template literals write for a
    missing region or account, never reaches a stack: a stack is built only
    with an environment that has both, and then the REGION line of its user
    data carries that region and the ARN of the secret carries that region
    and that account. *)
Theorem built_stack_carries_region_and_account (readFileSync : string -> string) (now : Z)
    (props : ASGRunnerStackProps) (st : ASGRunnerStack) :
  constructor readFileSync now props = inr st ->
  exists e a r,
    env props = Some e /\ account e = Some a /\ region e = Some r
    /\ lt_userData (launchTemplate st)
       = ("#!/bin/bash" ++ JsString.LF ++ "LABEL_STAGE=" ++ label_stage props ++ JsString.LF
          ++ "REPO=" ++ repo (type props) ++ JsString.LF
          ++ "REGION=" ++ r ++ JsString.LF)
         ++ readFileSync "./scripts/setup-linux-runner.sh"
    /\ secretResources st
       = [ "arn:aws:secretsmanager:" ++ r ++ ":" ++ a ++ ":secret:"
             ++ repo (type props) ++ "-runner-reg-key*" ].
Proof.
  intros Hst.
  destruct (constructor_inr _ _ _ _ Hst) as (_ & _ & _ & _ & Hu & _).
  destruct (constructor_inr_parts _ _ _ _ Hst) as (_ & Hs & _).
  destruct (constructor_inr_checks _ _ _ _ Hst) as (Hl & _).
  apply lacks_false in Hl. destruct Hl as (e & a & r & He & Ha & Hr).
  exists e, a, r. repeat split; try assumption.
  - rewrite Hu, platform_switch_is_default.
    unfold case_default, userData, env_region, JsString.interpolate; simpl.
    rewrite He, Hr. reflexivity.
  - rewrite Hs. unfold env_region, env_account, JsString.interpolate.
    rewrite He, Ha, Hr. reflexivity.
Qed.

Lemma built_stack_carries_region_and_account_witness :
  exists st,
    constructor sample_files sample_now
      (sample_props PlatformType.AMAZONLINUX "arm" "2023" Release
         (Some {| account := Some "456"; region := Some "eu-west-1" |})) = inr st
    /\ exists e a r,
         Some {| account := Some "456"; region := Some "eu-west-1" |} = Some e
         /\ account e = Some a /\ region e = Some r
         /\ lt_userData (launchTemplate st)
            = ("#!/bin/bash" ++ JsString.LF ++ "LABEL_STAGE=release" ++ JsString.LF
               ++ "REPO=myrepo" ++ JsString.LF ++ "REGION=" ++ r ++ JsString.LF)
              ++ "echo linux"
         /\ secretResources st
            = [ "arn:aws:secretsmanager:" ++ r ++ ":" ++ a ++ ":secret:"
                  ++ "myrepo" ++ "-runner-reg-key*" ].
Proof.
  eexists. split.
  - vm_compute. reflexivity.
  - apply (built_stack_carries_region_and_account sample_files sample_now
             (sample_props PlatformType.AMAZONLINUX "arm" "2023" Release
                (Some {| account := Some "456"; region := Some "eu-west-1" |}))).
    vm_compute. reflexivity.
Defined.

(** The sample stack in eu-west-1, in full. *)
Lemma built_stack_sample_texts :
  exists st,
    constructor sample_files sample_now
      (sample_props PlatformType.AMAZONLINUX "arm" "2023" Release
         (Some {| account := Some "456"; region := Some "eu-west-1" |})) = inr st
    /\ lt_userData (launchTemplate st)
       = ("#!/bin/bash" ++ JsString.LF ++ "LABEL_STAGE=release" ++ JsString.LF
          ++ "REPO=myrepo" ++ JsString.LF ++ "REGION=eu-west-1" ++ JsString.LF)
         ++ "echo linux"
    /\ secretResources st
       = [ "arn:aws:secretsmanager:eu-west-1:456:secret:myrepo-runner-reg-key*" ].
Proof.
  eexists. split; [ vm_compute; reflexivity |]. split; reflexivity.
Qed.

(** ** The resource group name *)

Lemma split_head_without_sep (sep : ascii) (s : string) :
  ~ In sep (list_ascii_of_string s) -> JsString.split_head sep s = s.
Proof.
  induction s as [| c s IH]; simpl; intros Hn.
  - reflexivity.
  - destruct (Ascii.eqb_spec c sep) as [Heq | Hneq].
    + exfalso. apply Hn. left. exact Heq.
    + f_equal. apply IH. intros Hin. apply Hn. right. exact Hin.
Qed.

Lemma split_head_at_first_sep (sep : ascii) (major rest : string) :
  ~ In sep (list_ascii_of_string major) ->
  JsString.split_head sep (major ++ String sep rest) = major.
Proof.
  induction major as [| c major IH]; simpl; intros Hn.
  - rewrite Ascii.eqb_refl. reflexivity.
  - destruct (Ascii.eqb_spec c sep) as [Heq | Hneq].
    + exfalso. apply Hn. left. exact Heq.
    + f_equal. apply IH. intros Hin. apply Hn. right. exact Hin.
Qed.

(** X11: the resource group name of a stack that is built is
    repo-platform-major-archHostGroup, where major is the version up to its
    first dot: a version without a dot enters whole, and what follows the
    first dot never shows in the name, so two versions with the same text
    before the first dot give the same name. *)
Theorem resource_group_name_uses_major (readFileSync : string -> string) (now : Z)
    (props : ASGRunnerStackProps) (st : ASGRunnerStack) :
  constructor readFileSync now props = inr st ->
  (~ In "."%char (list_ascii_of_string (version (type props))) ->
   resourceGroupName st
   = repo (type props) ++ "-" ++ platform (type props) ++ "-" ++ version (type props)
       ++ "-" ++ arch (type props) ++ "HostGroup")
  /\ (forall major rest,
        version (type props) = major ++ "." ++ rest ->
        ~ In "."%char (list_ascii_of_string major) ->
        resourceGroupName st
        = repo (type props) ++ "-" ++ platform (type props) ++ "-" ++ major
            ++ "-" ++ arch (type props) ++ "HostGroup").
Proof.
  intros Hst.
  destruct (constructor_inr_parts _ _ _ _ Hst) as (Hn & _).
  rewrite Hn. split.
  - intros Hv. rewrite (split_head_without_sep _ _ Hv). reflexivity.
  - intros major rest Hv Hm. rewrite Hv.
    change (major ++ "." ++ rest) with (major ++ String "."%char rest).
    rewrite (split_head_at_first_sep _ _ _ Hm). reflexivity.
Qed.

Lemma resource_group_name_uses_major_witness :
  exists st,
    constructor sample_files sample_now
      (sample_props PlatformType.MAC "arm" "14.2.1" Release (Some sample_env)) = inr st
    /\ (~ In "."%char (list_ascii_of_string "14.2.1") ->
        resourceGroupName st = "myrepo-mac-14.2.1-armHostGroup")
    /\ (forall major rest,
          "14.2.1" = major ++ "." ++ rest ->
          ~ In "."%char (list_ascii_of_string major) ->
          resourceGroupName st
          = "myrepo" ++ "-" ++ "mac" ++ "-" ++ major ++ "-" ++ "arm" ++ "HostGroup").
Proof.
  eexists. split.
  - vm_compute. reflexivity.
  - apply (resource_group_name_uses_major sample_files sample_now
             (sample_props PlatformType.MAC "arm" "14.2.1" Release (Some sample_env))).
    vm_compute. reflexivity.
Defined.

(** The sample stack for macOS 14.2.1 and the one for 14.7 share a name. *)
Lemma resource_group_name_collision :
  exists st st',
    constructor sample_files sample_now
      (sample_props PlatformType.MAC "arm" "14.2.1" Release (Some sample_env)) = inr st
    /\ constructor sample_files sample_now
         (sample_props PlatformType.MAC "arm" "14.7" Release (Some sample_env)) = inr st'
    /\ resourceGroupName st = "myrepo-mac-14-armHostGroup"
    /\ resourceGroupName st' = "myrepo-mac-14-armHostGroup".
Proof.
  do 2 eexists. split; [ vm_compute; reflexivity |].
  split; [ vm_compute; reflexivity |]. split; reflexivity.
Qed.

(** ** The launch template and the group *)

(** X12: a stack that is built carries the license ARN of the props as its
    single license specification when that ARN is a non-empty string, and no
    license specification when it is absent or the empty string. *)
Theorem license_specification_when_given (readFileSync : string -> string) (now : Z)
    (props : ASGRunnerStackProps) (st : ASGRunnerStack) :
  constructor readFileSync now props = inr st ->
  (forall a, licenseArn props = Some a -> a <> "" ->
             licenseSpecifications (launchTemplate st) = [a])
  /\ (licenseArn props = None \/ licenseArn props = Some "" ->
      licenseSpecifications (launchTemplate st) = []).
Proof.
  intros Hst.
  destruct (constructor_inr_parts _ _ _ _ Hst) as (_ & _ & Hl & _).
  rewrite Hl. unfold license_specifications. split.
  - intros a Ha Hne. rewrite Ha. apply String.eqb_neq in Hne. rewrite Hne. reflexivity.
  - intros [Ha | Ha]; rewrite Ha; reflexivity.
Qed.

Lemma license_specification_when_given_witness :
  exists st,
    constructor sample_files sample_now
      {| env := Some sample_env; stage := Release;
         licenseArn := Some "arn:aws:license-manager:us-east-1:123:license-configuration:lic-1";
         type := {| platform := PlatformType.MAC; arch := "arm"; version := "14";
                    repo := "myrepo"; desiredInstances := 2 |} |} = inr st
    /\ (forall a,
          Some "arn:aws:license-manager:us-east-1:123:license-configuration:lic-1" = Some a ->
          a <> "" ->
          licenseSpecifications (launchTemplate st) = [a])
    /\ (Some "arn:aws:license-manager:us-east-1:123:license-configuration:lic-1" = None
        \/ Some "arn:aws:license-manager:us-east-1:123:license-configuration:lic-1" = Some "" ->
        licenseSpecifications (launchTemplate st) = []).
Proof.
  eexists. split.
  - vm_compute. reflexivity.
  - apply (license_specification_when_given sample_files sample_now
             {| env := Some sample_env; stage := Release;
                licenseArn :=
                  Some "arn:aws:license-manager:us-east-1:123:license-configuration:lic-1";
                type := {| platform := PlatformType.MAC; arch := "arm"; version := "14";
                           repo := "myrepo"; desiredInstances := 2 |} |}).
    vm_compute. reflexivity.
Defined.

(** X13: every stack that is built has the rolling update policy with batch
    size 1, no instance kept in service, the five scaling processes
    suspended and no wait on resource signals, a health check grace of 3600
    seconds, host tenancy and IMDSv2 required, whatever the props. *)
Theorem update_policy_is_fixed (readFileSync : string -> string) (now : Z)
    (props : ASGRunnerStackProps) (st : ASGRunnerStack) :
  constructor readFileSync now props = inr st ->
  updatePolicy (asg st)
  = {| maxBatchSize := 1;
       minInstancesInService := 0;
       suspendProcesses :=
         [HEALTH_CHECK; REPLACE_UNHEALTHY; AZ_REBALANCE; ALARM_NOTIFICATION; SCHEDULED_ACTIONS];
       waitOnResourceSignals := false |}
  /\ healthCheckGraceSeconds (asg st) = 3600
  /\ tenancy (launchTemplate st) = "host"
  /\ requireImdsv2 (launchTemplate st) = true.
Proof.
  intros Hst.
  destruct (constructor_inr _ _ _ _ Hst) as (_ & _ & _ & _ & _ & _ & _ & _ & _ & _ & Hp).
  destruct (constructor_inr_parts _ _ _ _ Hst) as (_ & _ & _ & _ & _ & _ & Hi & Ht & Hg & _).
  rewrite Hp, Hi, Ht, Hg. repeat split.
Qed.

Lemma update_policy_is_fixed_witness :
  exists st,
    constructor sample_files sample_now
      (sample_props "fedora" "x86" "40" Beta (Some sample_env)) = inr st
    /\ updatePolicy (asg st)
       = {| maxBatchSize := 1;
            minInstancesInService := 0;
            suspendProcesses :=
              [HEALTH_CHECK; REPLACE_UNHEALTHY; AZ_REBALANCE; ALARM_NOTIFICATION;
               SCHEDULED_ACTIONS];
            waitOnResourceSignals := false |}
    /\ healthCheckGraceSeconds (asg st) = 3600
    /\ tenancy (launchTemplate st) = "host"
    /\ requireImdsv2 (launchTemplate st) = true.
Proof.
  eexists. split.
  - vm_compute. reflexivity.
  - apply (update_policy_is_fixed sample_files sample_now
             (sample_props "fedora" "x86" "40" Beta (Some sample_env))).
    vm_compute. reflexivity.
Defined.

(** ** The files the stack reads *)

(** X14: of the texts the constructor reads, only that of
    setup-linux-runner.sh reaches its result: with two file systems that hold
    the same text for that script, the constructor returns the same stack or
    raises the same error, whatever they hold for setup-runner.sh and for
    the Windows yaml and whatever the platform. *)
Theorem only_linux_script_text_matters (readFileSync readFileSync' : string -> string)
    (now : Z) (props : ASGRunnerStackProps) :
  readFileSync "./scripts/setup-linux-runner.sh"
  = readFileSync' "./scripts/setup-linux-runner.sh" ->
  constructor readFileSync now props = constructor readFileSync' now props.
Proof.
  intros Hf.
  assert (Hsw : platform_switch readFileSync props = platform_switch readFileSync' props).
  { rewrite !platform_switch_is_default. unfold case_default, userData; simpl.
    rewrite Hf. reflexivity. }
  unfold constructor. rewrite Hsw. reflexivity.
Qed.

Lemma only_linux_script_text_matters_witness :
  constructor sample_files sample_now
    (sample_props PlatformType.WINDOWS "x86" "2022" Release (Some sample_env))
  = constructor (fun _ => "echo linux") sample_now
      (sample_props PlatformType.WINDOWS "x86" "2022" Release (Some sample_env)).
Proof.
  apply (only_linux_script_text_matters sample_files (fun _ => "echo linux") sample_now
           (sample_props PlatformType.WINDOWS "x86" "2022" Release (Some sample_env))).
  reflexivity.
Defined.

(** ** The environment configuration and the stack together *)

Lemma undefined_error_needs_no_env (readFileSync : string -> string) (now : Z)
    (props : ASGRunnerStackProps) :
  constructor readFileSync now props = inl (Error "Runner environment is undefined!") ->
  env props = None.
Proof.
  intros H.
  destruct (constructor_errors _ _ _ _ H)
    as [[_ He] | [(Herr & _) | [(Herr & _) | [(Herr & _) | (Herr & _)]]]];
    [ exact He | discriminate Herr .. ].
Qed.

(** X15: with an environment configuration that was returned, a stack given
    its envPipeline or its envBeta never raises the undefined-environment
    error, and a stack given its envProd or its envRelease raises that error
    exactly when the configuration is a dev configuration. *)
Theorem config_environments_in_stack (readFileSync : string -> string) (now : Z)
    (configFile : EnvConfig.ConfigFile) (c : EnvConfig.EnvConfigClass)
    (props : ASGRunnerStackProps) :
  EnvConfig.constructor configFile = inr c ->
  (env props = EnvConfig.envPipeline c \/ env props = EnvConfig.envBeta c ->
   constructor readFileSync now props <> inl (Error "Runner environment is undefined!"))
  /\ (env props = EnvConfig.envProd c \/ env props = EnvConfig.envRelease c ->
      (constructor readFileSync now props = inl (Error "Runner environment is undefined!")
       <-> EnvConfig.isDev c = Some true)).
Proof.
  intros Hc.
  destruct (env_config_cases _ _ Hc) as [(d & _ & ->) | (p & b & pr & r & _ & ->)]; simpl.
  - split.
    + intros [He | He]; intros H; apply undefined_error_needs_no_env in H; congruence.
    + intros [He | He]; (split; [ reflexivity |]); intros _;
        unfold constructor, bind, when_; rewrite He; reflexivity.
  - split.
    + intros [He | He]; intros H; apply undefined_error_needs_no_env in H; congruence.
    + intros [He | He]; (split; [| discriminate ]); intros H;
        apply undefined_error_needs_no_env in H; congruence.
Qed.

Lemma config_environments_in_stack_witness :
  exists c,
    EnvConfig.constructor (EnvConfig.mkConfigFile (Some sample_env) None None None None)
    = inr c
    /\ (EnvConfig.envProd c = EnvConfig.envPipeline c
        \/ EnvConfig.envProd c = EnvConfig.envBeta c ->
        constructor sample_files sample_now
          (sample_props PlatformType.AMAZONLINUX "arm" "2023" Prod (EnvConfig.envProd c))
        <> inl (Error "Runner environment is undefined!"))
    /\ (EnvConfig.envProd c = EnvConfig.envProd c
        \/ EnvConfig.envProd c = EnvConfig.envRelease c ->
        (constructor sample_files sample_now
           (sample_props PlatformType.AMAZONLINUX "arm" "2023" Prod (EnvConfig.envProd c))
         = inl (Error "Runner environment is undefined!")
         <-> EnvConfig.isDev c = Some true)).
Proof.
  eexists. split.
  - reflexivity.
  - apply (config_environments_in_stack sample_files sample_now
             (EnvConfig.mkConfigFile (Some sample_env) None None None None)
             _
             (sample_props PlatformType.AMAZONLINUX "arm" "2023" Prod None)).
    reflexivity.
Defined.
